(** * PSP Core: wallet table, distribution rules and genesis digest

    A shallow embedding of [constants.py], [distribution.py] and [genesis.py]
    of the PSP core package, and the properties of the distribution table and
    of the genesis digest that its specification states.

    Python values are modelled as they are at run time: floats are IEEE 754
    binary64 numbers, dictionaries are insertion-ordered association lists,
    a failing subscript raises [KeyError]. *)

From Stdlib Require Import ZArith List String Ascii Bool Lia QArith Qround Qabs.
From Stdlib Require Import Floats.SpecFloat.
From Stdlib Require Import Numbers.DecimalString.
Import ListNotations.

Set Warnings "-register-all".

Local Open Scope string_scope.
Local Open Scope Z_scope.

(* ================================================================= *)
(** ** Python floats: IEEE 754 binary64 *)

Module PyFloat.

Definition prec : Z := 53.
Definition emax : Z := 1024.

Definition float := spec_float.

Definition of_Z (z : Z) : float := binary_normalize prec emax z 0 false.

Definition add (x y : float) : float := SFadd prec emax x y.
Definition sub (x y : float) : float := SFsub prec emax x y.
Definition mul (x y : float) : float := SFmul prec emax x y.
Definition div (x y : float) : float := SFdiv prec emax x y.
Definition abs (x : float) : float := SFabs x.
Definition ltb (x y : float) : bool := SFltb x y.
Definition leb (x y : float) : bool := SFleb x y.
Definition eqb (x y : float) : bool := SFeqb x y.

(** A decimal literal [m * 10^-e] of the source text, such as [1.225]
    (m = 1225, e = 3).  Python reads a literal as the binary64 number
    nearest to its decimal value.  For [|m| < 2^53] and [e <= 22] both [m]
    and [10^e] are binary64 numbers, so that nearest number is their
    correctly rounded quotient. *)
Definition lit (m : Z) (e : nat) : float :=
  div (of_Z m) (of_Z (10 ^ Z.of_nat e)).

Definition is_finite (x : float) : bool :=
  match x with
  | S754_zero _ | S754_finite _ _ _ => true
  | _ => false
  end.

(** The rational number a finite float denotes. *)
Definition toQ (x : float) : Q :=
  match x with
  | S754_finite s m e =>
      let n := if s then Z.neg m else Z.pos m in
      if 0 <=? e then inject_Z (n * 2 ^ e)
      else Qmake n (Z.to_pos (2 ^ (- e)))
  | _ => 0%Q
  end.

(** *** [repr] of a float

    [str(x)] and an f-string field [{x}] print a float with [repr]: the
    shortest decimal string that reads back as [x] and, among those of that
    length, the one nearest to [x]; in positional notation when the decimal
    point falls within [-3 .. 16] digits of the first digit.  Outside that
    window Python switches to exponent notation, which this model does not
    print (it answers [None]). *)

Definition Qpow2 (k : Z) : Q :=
  if 0 <=? k then inject_Z (2 ^ k) else Qmake 1 (Z.to_pos (2 ^ (- k))).

Definition Qpow10 (k : Z) : Q :=
  if 0 <=? k then inject_Z (10 ^ k) else Qmake 1 (Z.to_pos (10 ^ (- k))).

Definition Qltb (a b : Q) : bool :=
  match Qcompare a b with Lt => true | _ => false end.

Definition emin : Z := 3 - emax - prec.

(** Does the real number [r] round (to nearest, ties to even) to the
    positive float [m * 2^e]?  The float below a power of two is half as
    far away as the float above it. *)
Definition rounds_to (m : positive) (e : Z) (r : Q) : bool :=
  let hi := (inject_Z (2 * Z.pos m + 1) * Qpow2 (e - 1))%Q in
  let lo :=
    if (Z.pos m =? 2 ^ (prec - 1)) && (emin <? e)
    then (inject_Z (4 * Z.pos m - 1) * Qpow2 (e - 2))%Q
    else (inject_Z (2 * Z.pos m - 1) * Qpow2 (e - 1))%Q in
  if Z.even (Z.pos m)
  then Qle_bool lo r && Qle_bool r hi
  else Qltb lo r && Qltb r hi.

(** The [p] with [10^p <= v < 10^(p+1)], searched downwards from [p]. *)
Fixpoint exp10_from (fuel : nat) (p : Z) (v : Q) : option Z :=
  match fuel with
  | O => None
  | S fuel' =>
      if Qle_bool (Qpow10 p) v then Some p
      else exp10_from fuel' (p - 1) v
  end.

(** The best decimal [c * 10^k] with [n] significant digits, when one
    reads back as the float. *)
Definition candidate (m : positive) (e : Z) (v : Q) (p n : Z)
  : option (Z * Z) :=
  let k := p - n + 1 in
  let lo := Qfloor (v / Qpow10 k) in
  let hi := lo + 1 in
  let vlo := (inject_Z lo * Qpow10 k)%Q in
  let vhi := (inject_Z hi * Qpow10 k)%Q in
  match rounds_to m e vlo, rounds_to m e vhi with
  | true, true =>
      if Qle_bool (v - vlo) (vhi - v) then Some (lo, k) else Some (hi, k)
  | true, false => Some (lo, k)
  | false, true => Some (hi, k)
  | false, false => None
  end.

Fixpoint shortest (fuel : nat) (m : positive) (e : Z) (v : Q) (p n : Z)
  : option (Z * Z) :=
  match fuel with
  | O => None
  | S fuel' =>
      match candidate m e v p n with
      | Some ck => Some ck
      | None => shortest fuel' m e v p (n + 1)
      end
  end.

Fixpoint strip_zeros (fuel : nat) (c k : Z) : Z * Z :=
  match fuel with
  | O => (c, k)
  | S fuel' =>
      if (c mod 10 =? 0) && negb (c =? 0)
      then strip_zeros fuel' (c / 10) (k + 1)
      else (c, k)
  end.

Fixpoint zeros (n : nat) : string :=
  match n with
  | O => ""
  | S n' => String "0" (zeros n')
  end.

Definition digits_of (c : Z) : string :=
  NilZero.string_of_uint (N.to_uint (Z.to_N c)).

(** Positional layout of the digits [ds] with the decimal point after
    [decpt] of them. *)
Definition layout (ds : string) (decpt : Z) : string :=
  let len := Z.of_nat (String.length ds) in
  if decpt <=? 0 then "0." ++ zeros (Z.to_nat (- decpt)) ++ ds
  else if len <=? decpt then ds ++ zeros (Z.to_nat (decpt - len)) ++ ".0"
  else substring 0 (Z.to_nat decpt) ds ++ "."
       ++ substring (Z.to_nat decpt) (Z.to_nat (len - decpt)) ds.

Definition repr_pos (m : positive) (e : Z) : option string :=
  let v := (inject_Z (Z.pos m) * Qpow2 e)%Q in
  if Qle_bool (Qpow10 17) v then None else
  match exp10_from 24 16 v with
  | None => None
  | Some p =>
      match shortest 17 m e v p 1 with
      | None => None
      | Some (c, k) =>
          let '(c', k') := strip_zeros 17 c k in
          let ds := digits_of c' in
          let decpt := Z.of_nat (String.length ds) + k' in
          if (-3 <=? decpt) && (decpt <=? 16)
          then Some (layout ds decpt) else None
      end
  end.

Definition repr (x : float) : option string :=
  match x with
  | S754_zero false => Some "0.0"
  | S754_zero true => Some "-0.0"
  | S754_infinity false => Some "inf"
  | S754_infinity true => Some "-inf"
  | S754_nan => Some "nan"
  | S754_finite false m e => repr_pos m e
  | S754_finite true m e =>
      match repr_pos m e with
      | Some s => Some ("-" ++ s)
      | None => None
      end
  end.

End PyFloat.

Abbreviation float := PyFloat.float.

(* ================================================================= *)
(** ** Python values and the operations the package applies to them *)

Module Py.

(** Exceptions.  [Unmodelled] marks a use of an operation outside the
    fragment of Python embedded here; no function of the package reaches
    it on the module-level tables. *)
Inductive exn :=
| KeyError (key : string)
| TypeError
| OverflowError
| Unmodelled.

Inductive result (A : Type) :=
| Ok (a : A)
| Raise (e : exn).
Arguments Ok {A} a.
Arguments Raise {A} e.

Definition bind {A B} (r : result A) (k : A -> result B) : result B :=
  match r with
  | Ok a => k a
  | Raise e => Raise e
  end.

Declare Scope py_scope.
Delimit Scope py_scope with py.
Notation "x <- r ;; k" := (bind r (fun x => k))
  (at level 61, r at next level, right associativity) : py_scope.
Local Open Scope py_scope.

Fixpoint mapM {A B} (f : A -> result B) (l : list A) : result (list B) :=
  match l with
  | [] => Ok []
  | a :: l' => b <- f a ;; bs <- mapM f l' ;; Ok (b :: bs)
  end.

(** Values.  Every dictionary of the package has string keys; a dictionary
    keeps its keys in insertion order. *)
Inductive value :=
| VNone
| VBool (b : bool)
| VInt (z : Z)
| VFloat (f : float)
| VStr (s : string)
| VList (items : list value)
| VDict (entries : list (string * value)).

Definition dict := list (string * value).

(** *** Dictionaries *)

Fixpoint dict_get (d : dict) (k : string) : option value :=
  match d with
  | [] => None
  | (k', v) :: d' => if String.eqb k' k then Some v else dict_get d' k
  end.

(** [k in d] *)
Definition dict_contains (d : dict) (k : string) : bool :=
  match dict_get d k with Some _ => true | None => false end.

(** [d[k] = v]: an existing key keeps its position, a new key goes last. *)
Fixpoint dict_set (d : dict) (k : string) (v : value) : dict :=
  match d with
  | [] => [(k, v)]
  | (k', v') :: d' =>
      if String.eqb k' k then (k', v) :: d'
      else (k', v') :: dict_set d' k v
  end.

(** A dictionary display [{k1: v1, ..., **m, ...}] or literal: the items
    are stored from left to right, later ones overriding earlier ones. *)
Definition dict_update (d : dict) (items : list (string * value)) : dict :=
  fold_left (fun acc kv => dict_set acc (fst kv) (snd kv)) items d.

Definition dict_of (items : list (string * value)) : dict :=
  dict_update [] items.

Definition dict_keys (d : dict) : list string := map fst d.
Definition dict_values (d : dict) : list value := map snd d.

(** [v[k]] for a string key. *)
Definition subscript (v : value) (k : string) : result value :=
  match v with
  | VDict d =>
      match dict_get d k with
      | Some x => Ok x
      | None => Raise (KeyError k)
      end
  | _ => Raise TypeError
  end.

(** [**v] inside a dictionary display. *)
Definition mapping_items (v : value) : result (list (string * value)) :=
  match v with
  | VDict d => Ok d
  | _ => Raise TypeError
  end.

(** [len(v)] *)
Definition len (v : value) : result value :=
  match v with
  | VStr s => Ok (VInt (Z.of_nat (String.length s)))
  | VList l => Ok (VInt (Z.of_nat (List.length l)))
  | VDict d => Ok (VInt (Z.of_nat (List.length d)))
  | _ => Raise TypeError
  end.

(** An argument left out of a call takes the parameter's default. *)
Definition or_default (arg : option value) (default : value) : value :=
  match arg with
  | Some v => v
  | None => default
  end.

(** *** Truth value, equality *)

Definition truthy (v : value) : bool :=
  match v with
  | VNone => false
  | VBool b => b
  | VInt z => negb (z =? 0)
  | VFloat f => negb (PyFloat.eqb f (S754_zero false))
  | VStr s => negb (String.eqb s "")
  | VList l => match l with [] => false | _ => true end
  | VDict d => match d with [] => false | _ => true end
  end.

(** [a == b] between values of one scalar type; values of different types
    (numbers apart, which the package never compares) are unequal. *)
Definition is_number (v : value) : bool :=
  match v with
  | VBool _ | VInt _ | VFloat _ => true
  | _ => false
  end.

Definition is_container (v : value) : bool :=
  match v with
  | VList _ | VDict _ => true
  | _ => false
  end.

Definition eq_scalar (a b : value) : result bool :=
  match a, b with
  | VNone, VNone => Ok true
  | VStr x, VStr y => Ok (String.eqb x y)
  | VBool x, VBool y => Ok (Bool.eqb x y)
  | VInt x, VInt y => Ok (x =? y)
  | VFloat x, VFloat y => Ok (PyFloat.eqb x y)
  | _, _ =>
      if (is_number a && is_number b) || (is_container a && is_container b)
      then Raise Unmodelled
      else Ok false
  end.

(** *** Numbers *)

Definition int_of_bool (b : bool) : Z := if b then 1 else 0.

(** [float(z)] for an integer: the nearest binary64 number, or
    [OverflowError] beyond the largest one. *)
Definition float_of_int (z : Z) : result float :=
  let f := PyFloat.of_Z z in
  if PyFloat.is_finite f then Ok f else Raise OverflowError.

(** Binary arithmetic on numbers: two integers stay integers, an integer
    met by a float is converted to a float first. *)
Definition arith (fz : Z -> Z -> Z) (ff : float -> float -> float)
           (a b : value) : result value :=
  match a, b with
  | VFloat x, VFloat y => Ok (VFloat (ff x y))
  | VFloat x, VInt y => y' <- float_of_int y ;; Ok (VFloat (ff x y'))
  | VFloat x, VBool y =>
      y' <- float_of_int (int_of_bool y) ;; Ok (VFloat (ff x y'))
  | VInt x, VFloat y => x' <- float_of_int x ;; Ok (VFloat (ff x' y))
  | VBool x, VFloat y =>
      x' <- float_of_int (int_of_bool x) ;; Ok (VFloat (ff x' y))
  | VInt x, VInt y => Ok (VInt (fz x y))
  | VInt x, VBool y => Ok (VInt (fz x (int_of_bool y)))
  | VBool x, VInt y => Ok (VInt (fz (int_of_bool x) y))
  | VBool x, VBool y => Ok (VInt (fz (int_of_bool x) (int_of_bool y)))
  | _, _ => Raise Unmodelled
  end.

Definition add : value -> value -> result value := arith Z.add PyFloat.add.
Definition sub : value -> value -> result value := arith Z.sub PyFloat.sub.

(** [abs(v)] *)
Definition abs (v : value) : result value :=
  match v with
  | VFloat x => Ok (VFloat (PyFloat.abs x))
  | VInt x => Ok (VInt (Z.abs x))
  | VBool x => Ok (VInt (int_of_bool x))
  | _ => Raise TypeError
  end.

(** [a < b] between two floats or two integers. *)
Definition lt (a b : value) : result bool :=
  match a, b with
  | VFloat x, VFloat y => Ok (PyFloat.ltb x y)
  | VInt x, VInt y => Ok (x <? y)
  | _, _ => Raise Unmodelled
  end.

(** *** [sum]

    [sum(xs)] starts from the integer [0] and adds the items from left to
    right.  Up to CPython 3.11 every step is one addition.  From CPython
    3.12 on, once the running total is a float, the floats that follow are
    added with Neumaier's compensated summation: the rounding error of each
    addition is collected in [c] and added back at the end.  The package
    does not fix an interpreter version, so a run is described by which of
    the two its interpreter does. *)

Fixpoint sum_plain (acc : value) (xs : list value) : result value :=
  match xs with
  | [] => Ok acc
  | x :: xs' => acc' <- add acc x ;; sum_plain acc' xs'
  end.

Fixpoint sum_neumaier (f c : float) (xs : list value) : result value :=
  match xs with
  | [] =>
      Ok (VFloat (if negb (PyFloat.eqb c (S754_zero false))
                     && PyFloat.is_finite c
                  then PyFloat.add f c else f))
  | VFloat x :: xs' =>
      let t := PyFloat.add f x in
      let c' :=
        if PyFloat.leb (PyFloat.abs x) (PyFloat.abs f)
        then PyFloat.add c (PyFloat.add (PyFloat.sub f t) x)
        else PyFloat.add c (PyFloat.add (PyFloat.sub x t) f) in
      sum_neumaier t c' xs'
  | VInt x :: xs' =>
      x' <- float_of_int x ;; sum_neumaier (PyFloat.add f x') c xs'
  | _ => Raise Unmodelled
  end.

Fixpoint sum_compensated (acc : value) (xs : list value) : result value :=
  match acc with
  | VFloat f => sum_neumaier f (S754_zero false) xs
  | _ =>
      match xs with
      | [] => Ok acc
      | x :: xs' => acc' <- add acc x ;; sum_compensated acc' xs'
      end
  end.

(** What a run depends on besides the program: the interpreter's [sum],
    and the reading of the clock, [datetime.now(timezone.utc).isoformat()]. *)
Record runtime := {
  compensated_sum : bool;
  utc_now_isoformat : string
}.

Definition sum (rt : runtime) (xs : list value) : result value :=
  if compensated_sum rt then sum_compensated (VInt 0) xs
  else sum_plain (VInt 0) xs.

(** *** Strings *)

Definition str_of_int (z : Z) : string :=
  NilZero.string_of_int (Z.to_int z).

(** [str(v)], which is also how an f-string prints a field [{v}]. *)
Definition str (v : value) : result string :=
  match v with
  | VNone => Ok "None"
  | VBool true => Ok "True"
  | VBool false => Ok "False"
  | VInt z => Ok (str_of_int z)
  | VFloat f =>
      match PyFloat.repr f with
      | Some s => Ok s
      | None => Raise Unmodelled
      end
  | VStr s => Ok s
  | VList _ | VDict _ => Raise Unmodelled
  end.

(** [s * n] *)
Fixpoint repeat_string (s : string) (n : nat) : string :=
  match n with
  | O => ""
  | S n' => s ++ repeat_string s n'
  end.

(** [sep.join(v)] for a list [v]; every item must be a string. *)
Fixpoint join_strings (sep : string) (xs : list value) : result string :=
  match xs with
  | [] => Ok ""
  | [VStr s] => Ok s
  | VStr s :: xs' => r <- join_strings sep xs' ;; Ok (s ++ sep ++ r)
  | _ :: _ => Raise TypeError
  end.

Definition join (sep : string) (v : value) : result string :=
  match v with
  | VList xs => join_strings sep xs
  | _ => Raise Unmodelled
  end.

End Py.

Import Py.
Local Open Scope py_scope.

(* ================================================================= *)
(** ** [constants.py]: the Greek wallets table *)

Module Constants.

Definition TOTAL_PSP_PER_TRANSACTION : value := VFloat (PyFloat.lit 7500 3).

Definition GREEK_WALLETS : dict := dict_of [
  ("athena", VDict (dict_of [
    ("name", VStr "Athena");
    ("role", VStr "foundation");
    ("display_role", VStr "PSP Foundation");
    ("psp_amount", VFloat (PyFloat.lit 2000 3));
    ("percentage", VFloat (PyFloat.lit 2667 2));
    ("description",
     VStr "Proof Of Service Protocol Foundation - Operational expenses");
    ("destination_type", VStr "foundation");
    ("immutable", VBool false)]));
  ("hermes", VDict (dict_of [
    ("name", VStr "Hermes");
    ("role", VStr "platform");
    ("display_role", VStr "Platform Operations");
    ("psp_amount", VFloat (PyFloat.lit 1225 3));
    ("percentage", VFloat (PyFloat.lit 1633 2));
    ("description", VStr "Platform operations and services");
    ("destination_type", VStr "platform");
    ("immutable", VBool false)]));
  ("chronos", VDict (dict_of [
    ("name", VStr "Chronos");
    ("role", VStr "development");
    ("display_role", VStr "Development Team");
    ("psp_amount", VFloat (PyFloat.lit 1125 3));
    ("percentage", VFloat (PyFloat.lit 1500 2));
    ("description", VStr "Development team rewards");
    ("destination_type", VStr "developers");
    ("immutable", VBool false)]));
  ("prometheus", VDict (dict_of [
    ("name", VStr "Prometheus");
    ("role", VStr "worker");
    ("display_role", VStr "Worker/Technician");
    ("psp_amount", VFloat (PyFloat.lit 1000 3));
    ("percentage", VFloat (PyFloat.lit 1333 2));
    ("description", VStr "Worker rewards for completed services");
    ("destination_type", VStr "user");
    ("immutable", VBool false)]));
  ("apollo", VDict (dict_of [
    ("name", VStr "Apollo");
    ("role", VStr "client");
    ("display_role", VStr "Client");
    ("psp_amount", VFloat (PyFloat.lit 1000 3));
    ("percentage", VFloat (PyFloat.lit 1333 2));
    ("description", VStr "Client rewards for confirmed services");
    ("destination_type", VStr "user");
    ("immutable", VBool false)]));
  ("gaia", VDict (dict_of [
    ("name", VStr "Gaia");
    ("role", VStr "property");
    ("display_role", VStr "Property NFT");
    ("psp_amount", VFloat (PyFloat.lit 1000 3));
    ("percentage", VFloat (PyFloat.lit 1333 2));
    ("description", VStr "Property NFT rewards - Portable Protocol");
    ("destination_type", VStr "property_nft");
    ("immutable", VBool false);
    ("special_rule",
     VStr "PSP goes directly to PropertyNFT, not to user. Transfers with property ownership.")]));
  ("zeus", VDict (dict_of [
    ("name", VStr "Zeus");
    ("role", VStr "dao");
    ("display_role", VStr "DAO/Protocol");
    ("psp_amount", VFloat (PyFloat.lit 75 3));
    ("percentage", VFloat (PyFloat.lit 100 2));
    ("description",
     VStr "Protocol DAO governance reserve - Immutable 1%");
    ("destination_type", VStr "dao");
    ("immutable", VBool true)]));
  ("olympus", VDict (dict_of [
    ("name", VStr "Olympus");
    ("role", VStr "legal");
    ("display_role", VStr "Legal Operations");
    ("psp_amount", VFloat (PyFloat.lit 75 3));
    ("percentage", VFloat (PyFloat.lit 100 2));
    ("description", VStr "Community legal operations - Immutable 1%");
    ("destination_type", VStr "legal");
    ("immutable", VBool true)]))
].

Definition WALLET_NAMES : list string := dict_keys GREEK_WALLETS.

Definition ETERNAL_RULES : dict := dict_of [
  ("zeus_percentage", VFloat (PyFloat.lit 100 2));
  ("olympus_percentage", VFloat (PyFloat.lit 100 2));
  ("total_psp_fixed", VFloat (PyFloat.lit 7500 3));
  ("audited_from_day_1", VBool true);
  ("satoshi_principle",
   VStr "Without verified physical work, there is no emission.")
].

Definition USER_WALLETS : list string := ["prometheus"; "apollo"].
Definition PROPERTY_WALLETS : list string := ["gaia"].
Definition SYSTEM_WALLETS : list string :=
  ["athena"; "hermes"; "chronos"; "zeus"; "olympus"].
Definition IMMUTABLE_WALLETS : list string := ["zeus"; "olympus"].

(** [abs(total - TOTAL_PSP_PER_TRANSACTION) < 0.001] *)
Definition within_tolerance (total : value) : result bool :=
  d <- sub total TOTAL_PSP_PER_TRANSACTION ;;
  a <- abs d ;;
  lt a (VFloat (PyFloat.lit 1 3)).

Definition validate_total (rt : runtime) : result bool :=
  amounts <- mapM (fun w => subscript w "psp_amount")
                  (dict_values GREEK_WALLETS) ;;
  total <- sum rt amounts ;;
  within_tolerance total.

(** The [for name, config in items] loop of [get_wallet_by_role]. *)
Fixpoint get_wallet_by_role_loop (items : list (string * value))
         (role : string) : result value :=
  match items with
  | [] => Ok VNone
  | (name, config) :: items' =>
      r <- subscript config "role" ;;
      hit <- eq_scalar r (VStr role) ;;
      if hit then
        cfg <- mapping_items config ;;
        Ok (VDict (dict_update (dict_of [("name", VStr name)]) cfg))
      else get_wallet_by_role_loop items' role
  end.

Definition get_wallet_by_role (role : string) : result value :=
  get_wallet_by_role_loop GREEK_WALLETS role.

End Constants.

(* ================================================================= *)
(** ** [distribution.py]: the emission rules *)

Module Distribution.
Import Constants.

(** The dictionary appended for one wallet by [distribute_classic_7_5]. *)
Definition classic_emission (item : string * value) : result value :=
  let '(wallet_name, config) := item in
  name <- subscript config "name" ;;
  role <- subscript config "role" ;;
  amount <- subscript config "psp_amount" ;;
  percentage <- subscript config "percentage" ;;
  destination_type <- subscript config "destination_type" ;;
  Ok (VDict (dict_of [
    ("wallet", VStr wallet_name);
    ("name", name);
    ("role", role);
    ("amount_psp", amount);
    ("percentage", percentage);
    ("destination_type", destination_type)])).

Definition distribute_classic_7_5 (rt : runtime) : result value :=
  emissions <- mapM classic_emission GREEK_WALLETS ;;
  amounts <- mapM (fun e => subscript e "amount_psp") emissions ;;
  total <- sum rt amounts ;;
  verified <- Constants.within_tolerance total ;;
  Ok (VDict (dict_of [
    ("emissions", VList emissions);
    ("total_psp", total);
    ("verified", VBool verified);
    ("timestamp", VStr (utc_now_isoformat rt))])).

Definition distribute_for_service (rt : runtime)
           (worker_id client_id : value)
           (property_id certificate_id : option value)
           (service_value_usd dapp_origen : option value) : result value :=
  let property_id := or_default property_id VNone in
  let certificate_id := or_default certificate_id VNone in
  let service_value_usd :=
    or_default service_value_usd (VFloat (PyFloat.lit 0 1)) in
  let dapp_origen := or_default dapp_origen (VStr "generic") in
  let timestamp := utc_now_isoformat rt in
  let emissions := [
    VDict (dict_of [
      ("wallet", VStr "athena");
      ("amount_psp", VFloat (PyFloat.lit 2000 3));
      ("destination_type", VStr "foundation");
      ("destination_id", VNone);
      ("role", VStr "PSP Foundation")]);
    VDict (dict_of [
      ("wallet", VStr "hermes");
      ("amount_psp", VFloat (PyFloat.lit 1225 3));
      ("destination_type", VStr "platform");
      ("destination_id", VNone);
      ("role", VStr "Platform")]);
    VDict (dict_of [
      ("wallet", VStr "chronos");
      ("amount_psp", VFloat (PyFloat.lit 1125 3));
      ("destination_type", VStr "developers");
      ("destination_id", VNone);
      ("role", VStr "Developers")]);
    VDict (dict_of [
      ("wallet", VStr "prometheus");
      ("amount_psp", VFloat (PyFloat.lit 1000 3));
      ("destination_type", VStr "user");
      ("destination_id", worker_id);
      ("role", VStr "Worker")]);
    VDict (dict_of [
      ("wallet", VStr "apollo");
      ("amount_psp", VFloat (PyFloat.lit 1000 3));
      ("destination_type", VStr "user");
      ("destination_id", client_id);
      ("role", VStr "Client")]);
    VDict (dict_of [
      ("wallet", VStr "gaia");
      ("amount_psp", VFloat (PyFloat.lit 1000 3));
      ("destination_type", VStr "property_nft");
      ("destination_id", property_id);
      ("role", VStr "Property NFT")]);
    VDict (dict_of [
      ("wallet", VStr "zeus");
      ("amount_psp", VFloat (PyFloat.lit 75 3));
      ("destination_type", VStr "dao");
      ("destination_id", VNone);
      ("role", VStr "DAO/Protocol")]);
    VDict (dict_of [
      ("wallet", VStr "olympus");
      ("amount_psp", VFloat (PyFloat.lit 75 3));
      ("destination_type", VStr "legal");
      ("destination_id", VNone);
      ("role", VStr "Legal")])
  ] in
  amounts <- mapM (fun e => subscript e "amount_psp") emissions ;;
  total <- sum rt amounts ;;
  verified <- Constants.within_tolerance total ;;
  Ok (VDict (dict_of [
    ("certificate_id", certificate_id);
    ("timestamp", VStr timestamp);
    ("total_psp", total);
    ("service_value_usd", service_value_usd);
    ("dapp_origen", dapp_origen);
    ("emissions", VList emissions);
    ("verified", VBool verified);
    ("eternal_rules_applied", VDict (dict_of [
      ("zeus_1_percent", VBool true);
      ("olympus_1_percent", VBool true);
      ("satoshi_principle", VBool true)]))])).

Definition get_wallet_info (wallet_name : string) : result value :=
  if negb (dict_contains GREEK_WALLETS wallet_name) then Ok VNone
  else
    config <- subscript (VDict GREEK_WALLETS) wallet_name ;;
    cfg <- mapping_items config ;;
    Ok (VDict (dict_update (dict_of [("name", VStr wallet_name)]) cfg)).

Definition get_all_wallets : result value := Ok (VDict GREEK_WALLETS).

(** One item of the dictionary comprehension of [get_distribution_summary]. *)
Definition summary_entry (item : string * value) : result (string * value) :=
  let '(name, info) := item in
  psp <- subscript info "psp_amount" ;;
  percentage <- subscript info "percentage" ;;
  role <- subscript info "display_role" ;;
  Ok (name, VDict (dict_of [
    ("psp", psp);
    ("percentage", percentage);
    ("role", role)])).

Definition get_distribution_summary : result value :=
  wallet_count <- len (VDict GREEK_WALLETS) ;;
  distribution <- mapM summary_entry GREEK_WALLETS ;;
  Ok (VDict (dict_of [
    ("protocol", VStr "PSP - Proof Of Service Protocol");
    ("version", VStr "1.0.0");
    ("total_psp_per_transaction", TOTAL_PSP_PER_TRANSACTION);
    ("wallet_count", wallet_count);
    ("wallets", VList (map VStr (dict_keys GREEK_WALLETS)));
    ("eternal_rules", VDict ETERNAL_RULES);
    ("distribution", VDict (dict_of distribution));
    ("user_destinations", VList [VStr "prometheus"; VStr "apollo"]);
    ("property_destination", VStr "gaia");
    ("system_destinations", VList [
      VStr "athena"; VStr "hermes"; VStr "chronos"; VStr "zeus";
      VStr "olympus"])])).

Definition get_gaia_protocol : result value :=
  Ok (VDict (dict_of [
    ("wallet", VStr "gaia");
    ("psp_amount", VFloat (PyFloat.lit 1000 3));
    ("destination_type", VStr "property_nft");
    ("description", VStr "PSP accumulated in the property, not in the user");
    ("on_transfer", VStr "PSP remains with the property");
    ("portable", VBool true)])).

End Distribution.

(* ================================================================= *)
(** ** [hashlib.sha256] (FIPS 180-4) and [str.encode('utf-8')] *)

Module Sha256.

Definition bytes := list Byte.byte.

Definition mask32 : Z := 0xffffffff.
Definition wrap (x : Z) : Z := Z.land x mask32.
Definition add32 (x y : Z) : Z := wrap (x + y).

Definition rotr (n x : Z) : Z :=
  wrap (Z.lor (Z.shiftr x n) (Z.shiftl x (32 - n))).
Definition not32 (x : Z) : Z := Z.lxor x mask32.

Definition Ch (x y z : Z) : Z :=
  Z.lxor (Z.land x y) (Z.land (not32 x) z).
Definition Maj (x y z : Z) : Z :=
  Z.lxor (Z.lxor (Z.land x y) (Z.land x z)) (Z.land y z).
Definition big_sigma0 (x : Z) : Z :=
  Z.lxor (Z.lxor (rotr 2 x) (rotr 13 x)) (rotr 22 x).
Definition big_sigma1 (x : Z) : Z :=
  Z.lxor (Z.lxor (rotr 6 x) (rotr 11 x)) (rotr 25 x).
Definition small_sigma0 (x : Z) : Z :=
  Z.lxor (Z.lxor (rotr 7 x) (rotr 18 x)) (Z.shiftr x 3).
Definition small_sigma1 (x : Z) : Z :=
  Z.lxor (Z.lxor (rotr 17 x) (rotr 19 x)) (Z.shiftr x 10).

Definition K : list Z := [
  0x428A2F98; 0x71374491; 0xB5C0FBCF; 0xE9B5DBA5;
  0x3956C25B; 0x59F111F1; 0x923F82A4; 0xAB1C5ED5;
  0xD807AA98; 0x12835B01; 0x243185BE; 0x550C7DC3;
  0x72BE5D74; 0x80DEB1FE; 0x9BDC06A7; 0xC19BF174;
  0xE49B69C1; 0xEFBE4786; 0x0FC19DC6; 0x240CA1CC;
  0x2DE92C6F; 0x4A7484AA; 0x5CB0A9DC; 0x76F988DA;
  0x983E5152; 0xA831C66D; 0xB00327C8; 0xBF597FC7;
  0xC6E00BF3; 0xD5A79147; 0x06CA6351; 0x14292967;
  0x27B70A85; 0x2E1B2138; 0x4D2C6DFC; 0x53380D13;
  0x650A7354; 0x766A0ABB; 0x81C2C92E; 0x92722C85;
  0xA2BFE8A1; 0xA81A664B; 0xC24B8B70; 0xC76C51A3;
  0xD192E819; 0xD6990624; 0xF40E3585; 0x106AA070;
  0x19A4C116; 0x1E376C08; 0x2748774C; 0x34B0BCB5;
  0x391C0CB3; 0x4ED8AA4A; 0x5B9CCA4F; 0x682E6FF3;
  0x748F82EE; 0x78A5636F; 0x84C87814; 0x8CC70208;
  0x90BEFFFA; 0xA4506CEB; 0xBEF9A3F7; 0xC67178F2].

Definition H0 : list Z := [
  0x6A09E667; 0xBB67AE85; 0x3C6EF372; 0xA54FF53A;
  0x510E527F; 0x9B05688C; 0x1F83D9AB; 0x5BE0CD19].

(** Padding: a [0x80] byte, zero bytes up to 56 modulo 64, then the length
    of the message in bits as a 64-bit big-endian number. *)
Definition be_bytes (n : nat) (x : Z) : list Z :=
  map (fun i => Z.land (Z.shiftr x (8 * Z.of_nat i)) 0xff) (rev (seq 0 n)).

Definition pad (msg : list Z) : list Z :=
  let len := Z.of_nat (List.length msg) in
  let fill := Z.to_nat ((55 - len) mod 64) in
  msg ++ [0x80] ++ repeat 0 fill ++ be_bytes 8 (8 * len).

Fixpoint be_words (fuel : nat) (bs : list Z) : list Z :=
  match fuel, bs with
  | S fuel', b0 :: b1 :: b2 :: b3 :: bs' =>
      Z.lor (Z.lor (Z.shiftl b0 24) (Z.shiftl b1 16))
            (Z.lor (Z.shiftl b2 8) b3)
      :: be_words fuel' bs'
  | _, _ => []
  end.

Fixpoint chunks (fuel : nat) (ws : list Z) : list (list Z) :=
  match fuel, ws with
  | S fuel', _ :: _ => firstn 16 ws :: chunks fuel' (skipn 16 ws)
  | _, _ => []
  end.

(** The message schedule, newest word first: the head is [W(t-1)]. *)
Fixpoint schedule (n : nat) (rev_ws : list Z) : list Z :=
  match n with
  | O => rev_ws
  | S n' =>
      let w := add32 (add32 (small_sigma1 (nth 1 rev_ws 0)) (nth 6 rev_ws 0))
                     (add32 (small_sigma0 (nth 14 rev_ws 0))
                            (nth 15 rev_ws 0)) in
      schedule n' (w :: rev_ws)
  end.

Record state := {
  ra : Z; rb : Z; rc : Z; rd : Z; re : Z; rf : Z; rg : Z; rh : Z
}.

Definition round (s : state) (kw : Z * Z) : state :=
  let t1 := add32 (add32 (add32 (rh s) (big_sigma1 (re s)))
                         (add32 (Ch (re s) (rf s) (rg s)) (fst kw)))
                  (snd kw) in
  let t2 := add32 (big_sigma0 (ra s)) (Maj (ra s) (rb s) (rc s)) in
  {| ra := add32 t1 t2; rb := ra s; rc := rb s; rd := rc s;
     re := add32 (rd s) t1; rf := re s; rg := rf s; rh := rg s |}.

Definition compress (h : state) (block : list Z) : state :=
  let ws := rev (schedule 48 (rev block)) in
  let s := fold_left round (combine K ws) h in
  {| ra := add32 (ra h) (ra s); rb := add32 (rb h) (rb s);
     rc := add32 (rc h) (rc s); rd := add32 (rd h) (rd s);
     re := add32 (re h) (re s); rf := add32 (rf h) (rf s);
     rg := add32 (rg h) (rg s); rh := add32 (rh h) (rh s) |}.

Definition initial : state :=
  {| ra := nth 0 H0 0; rb := nth 1 H0 0; rc := nth 2 H0 0; rd := nth 3 H0 0;
     re := nth 4 H0 0; rf := nth 5 H0 0; rg := nth 6 H0 0; rh := nth 7 H0 0 |}.

Definition byte_of_Z (z : Z) : Byte.byte :=
  match Byte.of_N (Z.to_N z) with
  | Some b => b
  | None => Byte.x00
  end.

Definition Z_of_byte (b : Byte.byte) : Z := Z.of_N (Byte.to_N b).

Definition digest (msg : bytes) : bytes :=
  let padded := pad (map Z_of_byte msg) in
  let words := be_words (List.length padded) padded in
  let s := fold_left compress (chunks (List.length words) words) initial in
  map byte_of_Z
      (flat_map (be_bytes 4)
         [ra s; rb s; rc s; rd s; re s; rf s; rg s; rh s]).

Definition hex_digit (n : Z) : ascii :=
  if n <? 10 then ascii_of_N (Z.to_N (48 + n))
  else ascii_of_N (Z.to_N (87 + n)).

Fixpoint hex (bs : bytes) : string :=
  match bs with
  | [] => ""
  | b :: bs' =>
      let z := Z_of_byte b in
      String (hex_digit (Z.shiftr z 4))
             (String (hex_digit (Z.land z 0xf)) (hex bs'))
  end.

Definition hexdigest (msg : bytes) : string := hex (digest msg).

(** [s.encode('utf-8')].  A character of a [string] is a code point below
    256: below 128 it is one byte, otherwise two. *)
Fixpoint encode_utf8 (s : string) : bytes :=
  match s with
  | EmptyString => []
  | String c s' =>
      let n := Z.of_N (N_of_ascii c) in
      if n <? 128 then byte_of_Z n :: encode_utf8 s'
      else byte_of_Z (Z.lor 0xc0 (Z.shiftr n 6))
           :: byte_of_Z (Z.lor 0x80 (Z.land n 0x3f))
           :: encode_utf8 s'
  end.

End Sha256.

(* ================================================================= *)
(** ** [genesis.py]: the genesis block and its digest *)

Module Genesis.

Definition GENESIS_BLOCK : dict := dict_of [
  ("block_number", VInt 0);
  ("version", VStr "1.0.0");
  ("timestamp", VStr "2025-12-01T00:00:00Z");
  ("previous_hash", VStr (repeat_string "0" 64));
  ("protocol", VStr "Proof Of Service Protocol");
  ("total_psp_per_transaction", VFloat (PyFloat.lit 7500 3));
  ("message", VStr "SmartWork Always Leads To Greatness");
  ("principles", VList [
    VStr "Radical Trust";
    VStr "Total Transparency";
    VStr "Real Utility";
    VStr "Shared Responsibility";
    VStr "Progressive Inclusion";
    VStr "Respect for Time and Effort"]);
  ("satoshi_legacy",
   VStr "Without verified physical work, there is no emission.");
  ("wallets", VList [
    VStr "athena";
    VStr "hermes";
    VStr "chronos";
    VStr "prometheus";
    VStr "apollo";
    VStr "gaia";
    VStr "zeus";
    VStr "olympus"]);
  ("immutable_rules", VDict (dict_of [
    ("zeus_percentage", VFloat (PyFloat.lit 100 2));
    ("olympus_percentage", VFloat (PyFloat.lit 100 2));
    ("total_psp_fixed", VFloat (PyFloat.lit 7500 3))]))
].

(** The f-string [genesis_string] of [_compute_genesis_hash]: the fields
    are evaluated and printed from left to right, between the literal
    pieces of the text. *)
Definition genesis_string : result string :=
  let G := VDict GENESIS_BLOCK in
  block_number <- subscript G "block_number" ;;
  s_block <- str block_number ;;
  version <- subscript G "version" ;;
  s_version <- str version ;;
  timestamp <- subscript G "timestamp" ;;
  s_timestamp <- str timestamp ;;
  protocol <- subscript G "protocol" ;;
  s_protocol <- str protocol ;;
  total <- subscript G "total_psp_per_transaction" ;;
  s_total <- str total ;;
  message <- subscript G "message" ;;
  s_message <- str message ;;
  satoshi <- subscript G "satoshi_legacy" ;;
  s_satoshi <- str satoshi ;;
  wallets <- subscript G "wallets" ;;
  joined <- join "," wallets ;;
  s_wallets <- str (VStr joined) ;;
  rules <- subscript G "immutable_rules" ;;
  zeus <- subscript rules "zeus_percentage" ;;
  s_zeus <- str zeus ;;
  rules' <- subscript G "immutable_rules" ;;
  olympus <- subscript rules' "olympus_percentage" ;;
  s_olympus <- str olympus ;;
  Ok ("block:" ++ s_block ++ "|"
      ++ "version:" ++ s_version ++ "|"
      ++ "timestamp:" ++ s_timestamp ++ "|"
      ++ "protocol:" ++ s_protocol ++ "|"
      ++ "psp:" ++ s_total ++ "|"
      ++ "message:" ++ s_message ++ "|"
      ++ "satoshi:" ++ s_satoshi ++ "|"
      ++ "wallets:" ++ s_wallets ++ "|"
      ++ "zeus:" ++ s_zeus ++ "|"
      ++ "olympus:" ++ s_olympus).

Definition _compute_genesis_hash : result string :=
  s <- genesis_string ;;
  Ok (Sha256.hexdigest (Sha256.encode_utf8 s)).

Definition GENESIS_HASH : result string := _compute_genesis_hash.

Definition verify_genesis (provided_hash : option value) : result value :=
  let provided_hash := or_default provided_hash VNone in
  let G := VDict GENESIS_BLOCK in
  computed <- _compute_genesis_hash ;;
  timestamp <- subscript G "timestamp" ;;
  version <- subscript G "version" ;;
  total <- subscript G "total_psp_per_transaction" ;;
  wallets <- subscript G "wallets" ;;
  wallet_count <- len wallets ;;
  let result := dict_of [
    ("genesis_hash", VStr computed);
    ("block_number", VInt 0);
    ("timestamp", timestamp);
    ("protocol_version", version);
    ("total_psp", total);
    ("wallet_count", wallet_count);
    ("verified", VBool true)] in
  if truthy provided_hash then
    let result := dict_set result "provided_hash" provided_hash in
    matches <- eq_scalar (VStr computed) provided_hash ;;
    let result := dict_set result "matches" (VBool matches) in
    matches' <- subscript (VDict result) "matches" ;;
    let result := dict_set result "verified" matches' in
    Ok (VDict result)
  else Ok (VDict result).

Definition get_genesis_info : result value :=
  let G := VDict GENESIS_BLOCK in
  hash <- GENESIS_HASH ;;
  timestamp <- subscript G "timestamp" ;;
  message <- subscript G "message" ;;
  principles <- subscript G "principles" ;;
  satoshi <- subscript G "satoshi_legacy" ;;
  total <- subscript G "total_psp_per_transaction" ;;
  Ok (VDict (dict_of [
    ("hash", VStr hash);
    ("block_number", VInt 0);
    ("timestamp", timestamp);
    ("message", message);
    ("principles", principles);
    ("satoshi_legacy", satoshi);
    ("total_psp_per_transaction", total)])).

End Genesis.

(* ================================================================= *)
(** * Properties *)

Import Constants Distribution Genesis.

(** ** Reading results, and the vocabulary of the statements *)

(** [v.get(k)] on a returned dictionary. *)
Definition field (v : value) (k : string) : option value :=
  match v with
  | VDict d => dict_get d k
  | _ => None
  end.

(** The list under ['emissions'] in a distribution result. *)
Definition emissions_of (r : value) : list value :=
  match field r "emissions" with
  | Some (VList es) => es
  | _ => []
  end.

Definition is_wallet (wallet : string) (e : value) : bool :=
  match field e "wallet" with
  | Some (VStr w) => String.eqb w wallet
  | _ => false
  end.

(** The emission of a distribution result for one wallet key. *)
Definition emission_for (r : value) (wallet : string) : option value :=
  find (is_wallet wallet) (emissions_of r).

(** The amount and the destination id an emission carries. *)
Definition amount_and_destination (r : value) (wallet : string)
  : option (value * value) :=
  match emission_for r wallet with
  | Some e =>
      match field e "amount_psp", field e "destination_id" with
      | Some a, Some d => Some (a, d)
      | _, _ => None
      end
  | None => None
  end.

Definition zero : float := PyFloat.of_Z 0.

(** The float under [key] in a wallet entry. *)
Definition float_field (config : value) (key : string) : option float :=
  match field config key with
  | Some (VFloat f) => Some f
  | _ => None
  end.

Definition amount_of (config : value) : option float :=
  float_field config "psp_amount".

(** The amounts of the table as rational numbers, added exactly. *)
Definition exact_sum (table : dict) : Q :=
  fold_left
    (fun acc kv =>
       match amount_of (snd kv) with
       | Some a => (acc + PyFloat.toQ a)%Q
       | None => acc
       end)
    table 0%Q.

Definition total_Q : Q :=
  match TOTAL_PSP_PER_TRANSACTION with
  | VFloat t => PyFloat.toQ t
  | _ => 0%Q
  end.

(** The share [amount / total * 100] of an entry, exactly. *)
Definition exact_share (a : float) : Q :=
  (PyFloat.toQ a / total_Q * 100)%Q.

(** The same share as Python computes it, in floats. *)
Definition float_share (a : float) : float :=
  match TOTAL_PSP_PER_TRANSACTION with
  | VFloat t => PyFloat.mul (PyFloat.div a t) (PyFloat.of_Z 100)
  | _ => S754_nan
  end.

(** The table with every literal evaluated. *)
Definition wallets_table : dict := Eval vm_compute in GREEK_WALLETS.

(** Does the entry [config] have the role [role]? *)
Definition has_role (role : string) (config : value) : bool :=
  match field config "role" with
  | Some (VStr r) => String.eqb r role
  | _ => false
  end.

(** The roles that occur in the table. *)
Definition known_roles : list string :=
  flat_map (fun kv => match field (snd kv) "role" with
                      | Some (VStr r) => [r]
                      | _ => []
                      end)
           GREEK_WALLETS.

(** An entry of the table: a dictionary whose role is a string. *)
Definition entry_ok (kv : string * value) : Prop :=
  exists cfg r, snd kv = VDict cfg /\ dict_get cfg "role" = Some (VStr r).

(** The record [get_wallet_info('athena')] returns. *)
Definition athena_record : dict :=
  Eval vm_compute in
    match get_wallet_info "athena" with
    | Ok (VDict r) => r
    | _ => []
    end.

(** A run on an interpreter with the plain [sum], at a fixed clock reading. *)
Definition sample_runtime : runtime :=
  {| compensated_sum := false;
     utc_now_isoformat := "2026-01-01T00:00:00+00:00" |}.

(** The wallet key, amount and destination type of an emission. *)
Definition core_of (e : value) : option (value * value * value) :=
  match field e "wallet", field e "amount_psp", field e "destination_type" with
  | Some w, Some a, Some t => Some (w, a, t)
  | _, _, _ => None
  end.

(** An emission without the fields named in [ks]. *)
Definition drop_keys (ks : list string) (e : value) : value :=
  match e with
  | VDict d =>
      VDict (filter (fun kv => negb (existsb (String.eqb (fst kv)) ks)) d)
  | _ => e
  end.

(** Two emissions differ in nothing but their destination id. *)
Definition differ_only_in_destination_id (e1 e2 : value) : Prop :=
  forall k, k <> "destination_id" -> field e1 k = field e2 k.

(** The keys of an emission, in order. *)
Definition keys_of (e : value) : list string :=
  match e with
  | VDict d => dict_keys d
  | _ => []
  end.

(** The keys of an emission of [distribute_classic_7_5]. *)
Definition generic_emission_keys : list string :=
  ["wallet"; "name"; "role"; "amount_psp"; "percentage"; "destination_type"].

(** The keys of an emission of [distribute_for_service]. *)
Definition service_emission_keys : list string :=
  ["wallet"; "amount_psp"; "destination_type"; "destination_id"; "role"].

(** The fields on which the emissions of the two operations differ. *)
Definition differing_fields : list string :=
  ["destination_id"; "role"; "name"; "percentage"].

(** Where a field of the canonical string comes from: a top-level field of
    the genesis block, its wallet list joined with commas, or one of its
    immutable rules. *)
Inductive field_source :=
| TopLevel (key : string)
| CommaJoined (key : string)
| ImmutableRule (key : string).

(** The fields of the digest in the order of the contract, each with the
    label it is written under. *)
Definition canonical_order : list (string * field_source) := [
  ("block", TopLevel "block_number");
  ("version", TopLevel "version");
  ("timestamp", TopLevel "timestamp");
  ("protocol", TopLevel "protocol");
  ("psp", TopLevel "total_psp_per_transaction");
  ("message", TopLevel "message");
  ("satoshi", TopLevel "satoshi_legacy");
  ("wallets", CommaJoined "wallets");
  ("zeus", ImmutableRule "zeus_percentage");
  ("olympus", ImmutableRule "olympus_percentage")
].

Definition render (src : field_source) : result string :=
  match src with
  | TopLevel key => v <- subscript (VDict GENESIS_BLOCK) key ;; str v
  | CommaJoined key => v <- subscript (VDict GENESIS_BLOCK) key ;; join "," v
  | ImmutableRule key =>
      rules <- subscript (VDict GENESIS_BLOCK) "immutable_rules" ;;
      v <- subscript rules key ;;
      str v
  end.

(** The segments [label:text] of the fields, in order. *)
Definition canonical_segments : result (list string) :=
  mapM (fun item => text <- render (snd item) ;; Ok (fst item ++ ":" ++ text))
       canonical_order.

(** The pipe-delimited string of the contract. *)
Definition canonical_string : result string :=
  segments <- canonical_segments ;;
  Ok (String.concat "|" segments).

Definition has_pipe (s : string) : bool :=
  existsb (Ascii.eqb "|") (list_ascii_of_string s).

Definition genesis_digest : string :=
  "9735c220461aa07cf93d7ad6152fdf32446e782e1e50066a571936b9906f2b9d".

Definition is_hex_digit (c : ascii) : bool :=
  let n := N_of_ascii c in
  ((48 <=? n) && (n <=? 57) || (97 <=? n) && (n <=? 102))%N.

Definition is_hex (s : string) : bool :=
  forallb is_hex_digit (list_ascii_of_string s).

(** Every string other than the digest is rejected by [verify_genesis]:
    [matches] and [verified] are [False]. *)
Definition every_wrong_hash_is_rejected : Prop :=
  forall wrong,
    wrong <> genesis_digest ->
    exists r,
      verify_genesis (Some (VStr wrong)) = Ok r
      /\ field r "matches" = Some (VBool false)
      /\ field r "verified" = Some (VBool false).

(** The record [verify_genesis()] returns. *)
Definition unchallenged_record : dict :=
  Eval vm_compute in
    match verify_genesis None with
    | Ok (VDict d) => d
    | _ => []
    end.

(** *** Further vocabulary *)

(** The wallet keys of the emissions of a distribution result, in order. *)
Definition emission_wallets (r : value) : list (option value) :=
  map (fun e => field e "wallet") (emissions_of r).


(** The fields a generic emission copies from the wallet entry, each with
    the key it has in the entry. *)
Definition copied_fields : list (string * string) :=
  [("name", "name"); ("role", "role"); ("amount_psp", "psp_amount");
   ("percentage", "percentage"); ("destination_type", "destination_type")].

(** Do the emission [e] and the wallet record [w] agree on a copied field? *)
Definition copied_from (e w : value) (names : string * string) : Prop :=
  exists v, field e (fst names) = Some v /\ field w (snd names) = Some v.

(** An entry that the loop of [get_wallet_by_role] passes over when it looks
    for [role]: a dictionary with a ['role'] that is not the string [role]
    (another string, or any value that is not a string). *)
Definition other_role (role : string) (kv : string * value) : Prop :=
  exists cfg r,
    snd kv = VDict cfg /\ dict_get cfg "role" = Some r /\ r <> VStr role.

(** The ['name'] of the record built for an entry: the entry's own, and the
    wallet key only when the entry has none. *)
Definition name_of_record (name : string) (cfg : dict) : value :=
  match dict_get cfg "name" with
  | Some v => v
  | None => VStr name
  end.

(** Entries that a lookup of ['dao'] passes over: one with another role,
    one whose role is not a string. *)
Definition entries_without_dao : list (string * value) :=
  [("athena", VDict [("name", VStr "Athena"); ("role", VStr "foundation")]);
   ("chaos", VDict [("role", VInt 7)])].

(** What the three lookups by a wrong kind of name return for an entry: by
    its display name as a key, by its key as a role, by its display role
    as a role. *)
Definition wrong_kind_lookups (kv : string * value)
  : option (result value * result value * result value) :=
  match field (snd kv) "name", field (snd kv) "display_role" with
  | Some (VStr name), Some (VStr display_role) =>
      Some (get_wallet_info name, get_wallet_by_role (fst kv),
            get_wallet_by_role display_role)
  | _, _ => None
  end.

(** The immutable rules of the genesis block. *)
Definition genesis_rules : value :=
  match field (VDict GENESIS_BLOCK) "immutable_rules" with
  | Some rules => rules
  | None => VNone
  end.

(** [key in group] *)
Definition in_group (group : list string) (key : string) : bool :=
  existsb (String.eqb key) group.

Definition has_destination_type (t : string) (config : value) : bool :=
  match field config "destination_type" with
  | Some (VStr t') => String.eqb t' t
  | _ => false
  end.

Definition is_immutable (config : value) : bool :=
  match field config "immutable" with
  | Some (VBool b) => b
  | _ => false
  end.

(** The three groups of wallet keys, one after the other. *)
Definition grouped_wallets : list string :=
  USER_WALLETS ++ PROPERTY_WALLETS ++ SYSTEM_WALLETS.

(** The entries of the table that are flagged immutable. *)
Definition immutable_entries : list (string * value) :=
  filter (fun kv => is_immutable (snd kv)) GREEK_WALLETS.

(** [total * percentage / 100], as Python computes it. *)
Definition share_of_total (percentage : float) : float :=
  match TOTAL_PSP_PER_TRANSACTION with
  | VFloat t => PyFloat.div (PyFloat.mul t percentage) (PyFloat.of_Z 100)
  | _ => S754_nan
  end.

(** The stored percentages of the table as rational numbers, added exactly. *)
Definition exact_percentage_sum (table : dict) : Q :=
  fold_left
    (fun acc kv =>
       match float_field (snd kv) "percentage" with
       | Some p => (acc + PyFloat.toQ p)%Q
       | None => acc
       end)
    table 0%Q.

(** The entry of a wallet in the ['distribution'] of the summary. *)
Definition summary_of (s : value) (key : string) : option value :=
  match field s "distribution" with
  | Some d => field d key
  | None => None
  end.

(** The fields of a summary entry, each with the key it has in the table. *)
Definition summary_fields : list (string * string) :=
  [("psp", "psp_amount"); ("percentage", "percentage");
   ("role", "display_role")].

(** ** The models of the library functions on known inputs *)

Example lit_1_225 :
  PyFloat.lit 1225 3 = S754_finite false 0x1399999999999A (-52).
Proof. vm_compute. reflexivity. Qed.

Example lit_0_075 :
  PyFloat.lit 75 3 = S754_finite false 0x13333333333333 (-56).
Proof. vm_compute. reflexivity. Qed.

Example lit_7_5_exact : PyFloat.toQ (PyFloat.lit 7500 3) == 15 # 2.
Proof. vm_compute. reflexivity. Qed.

Example repr_examples :
  map PyFloat.repr
      [PyFloat.lit 7500 3; PyFloat.lit 100 2; PyFloat.lit 1225 3;
       PyFloat.lit 2667 2; PyFloat.lit 1 3;
       PyFloat.add (PyFloat.lit 1 1) (PyFloat.lit 2 1);
       PyFloat.div (PyFloat.of_Z 2) (PyFloat.of_Z 3);
       PyFloat.of_Z (-3); PyFloat.lit 1 5]
  = [Some "7.5"; Some "1.0"; Some "1.225"; Some "26.67"; Some "0.001";
     Some "0.30000000000000004"; Some "0.6666666666666666"; Some "-3.0";
     None].
Proof. vm_compute. reflexivity. Qed.

Example sha256_empty :
  Sha256.hexdigest (Sha256.encode_utf8 "")
  = "e3b0c44298fc1c149afbf4c8996fb92427ae41e4649b934ca495991b7852b855".
Proof. vm_compute. reflexivity. Qed.

Example sha256_abc :
  Sha256.hexdigest (Sha256.encode_utf8 "abc")
  = "ba7816bf8f01cfea414140de5dae2223b00361a396177a9cb410ff61f20015ad".
Proof. vm_compute. reflexivity. Qed.

Example sha256_two_blocks :
  Sha256.hexdigest
    (Sha256.encode_utf8
       "abcdbcdecdefdefgefghfghighijhijkijkljklmklmnlmnomnopnopq")
  = "248d6a61d20638b8e5c026930c3e6039a33ce45964ff2167f6ecedd419db06c1".
Proof. vm_compute. reflexivity. Qed.

(** Both ways of summing give the eight amounts the same total. *)
Lemma sum_of_amounts (rt : runtime) :
  (amounts <- mapM (fun w => subscript w "psp_amount")
                   (dict_values GREEK_WALLETS) ;;
   sum rt amounts) = Ok TOTAL_PSP_PER_TRANSACTION.
Proof. destruct rt as [[|] now]; vm_compute; reflexivity. Qed.

(** ** The per-service distribution on the documented call *)

(** C1.  [distribute_for_service(worker_id=42, client_id=7, property_id=9,
    certificate_id=100, service_value_usd=250.0, dapp_origen="handyplan")]
    returns eight emissions, one per wallet key: prometheus 1.000 to 42,
    apollo 1.000 to 7, gaia 1.000 to 9, athena 2.000, hermes 1.225, chronos
    1.125, zeus 0.075 and olympus 0.075 with destination id [None]; the total
    is 7.500 and [verified] is [True].  This holds whichever [sum] the
    interpreter has and whatever the clock reads. *)
Theorem distribute_for_service_handyplan (rt : runtime) :
  exists r,
    distribute_for_service rt (VInt 42) (VInt 7) (Some (VInt 9))
      (Some (VInt 100)) (Some (VFloat (PyFloat.lit 2500 1)))
      (Some (VStr "handyplan")) = Ok r
    /\ List.length (emissions_of r) = 8%nat
    /\ amount_and_destination r "prometheus"
       = Some (VFloat (PyFloat.lit 1000 3), VInt 42)
    /\ amount_and_destination r "apollo"
       = Some (VFloat (PyFloat.lit 1000 3), VInt 7)
    /\ amount_and_destination r "gaia"
       = Some (VFloat (PyFloat.lit 1000 3), VInt 9)
    /\ amount_and_destination r "athena"
       = Some (VFloat (PyFloat.lit 2000 3), VNone)
    /\ amount_and_destination r "hermes"
       = Some (VFloat (PyFloat.lit 1225 3), VNone)
    /\ amount_and_destination r "chronos"
       = Some (VFloat (PyFloat.lit 1125 3), VNone)
    /\ amount_and_destination r "zeus"
       = Some (VFloat (PyFloat.lit 75 3), VNone)
    /\ amount_and_destination r "olympus"
       = Some (VFloat (PyFloat.lit 75 3), VNone)
    /\ field r "total_psp" = Some (VFloat (PyFloat.lit 7500 3))
    /\ field r "verified" = Some (VBool true).
Proof.
  destruct rt as [[|] now]; eexists; (split; [lazy; reflexivity|]);
    repeat split; vm_compute; reflexivity.
Qed.

(** ** The wallet table *)

(** C3.  Each of the eight wallet entries has an amount greater than zero;
    the sum of the eight amounts is within 0.001 of 7.500, both as the exact
    sum of the stored numbers and as the float that [sum] computes; and
    [validate_total()] returns [True]. *)
Theorem wallet_amounts_valid (rt : runtime) :
  List.length GREEK_WALLETS = 8%nat
  /\ Forall (fun kv => exists a, amount_of (snd kv) = Some a
                                 /\ PyFloat.ltb zero a = true)
            GREEK_WALLETS
  /\ total_Q == 15 # 2
  /\ (Qabs (exact_sum GREEK_WALLETS - total_Q) < 1 # 1000)%Q
  /\ (exists total,
        (amounts <- mapM (fun w => subscript w "psp_amount")
                         (dict_values GREEK_WALLETS) ;;
         sum rt amounts) = Ok total
        /\ Constants.within_tolerance total = Ok true)
  /\ validate_total rt = Ok true.
Proof.
  split; [reflexivity|].
  split.
  { unfold GREEK_WALLETS, dict_of, dict_update. cbn [fold_left dict_set fst snd String.eqb Ascii.eqb Bool.eqb].
    repeat constructor; eexists; (split; [vm_compute; reflexivity|]);
      vm_compute; reflexivity. }
  split; [vm_compute; reflexivity|].
  split; [vm_compute; reflexivity|].
  split.
  { exists TOTAL_PSP_PER_TRANSACTION. split.
    - apply sum_of_amounts.
    - vm_compute; reflexivity. }
  destruct rt as [[|] now]; vm_compute; reflexivity.
Qed.

(** C6.  In every wallet entry the stored percentage is the entry's amount
    divided by the total 7.500 and multiplied by 100, rounded to two decimal
    places: it is at most half a hundredth away from that share, whether the
    share is taken exactly or computed in floats. *)
Theorem percentage_matches_amount :
  Forall (fun kv =>
            exists a p,
              amount_of (snd kv) = Some a
              /\ float_field (snd kv) "percentage" = Some p
              /\ Qle_bool (Qabs (PyFloat.toQ p - exact_share a)) (1 # 200)
                 = true
              /\ PyFloat.leb
                   (PyFloat.abs (PyFloat.sub (float_share a) p))
                   (PyFloat.lit 5 3) = true)
         GREEK_WALLETS.
Proof.
  unfold GREEK_WALLETS, dict_of, dict_update.
  cbn [fold_left dict_set fst snd String.eqb Ascii.eqb Bool.eqb].
  repeat constructor; do 2 eexists;
    (split; [vm_compute; reflexivity|]);
    (split; [vm_compute; reflexivity|]);
    split; vm_compute; reflexivity.
Qed.

(** ** The per-service distribution without a property *)

(** C8.  When [property_id] is left out of a call of
    [distribute_for_service], whatever the other arguments are, the gaia
    emission has the key ['destination_id'] and its value is [None]: not the
    integer zero and not any other value. *)
Theorem gaia_destination_absent_without_property
        (rt : runtime) (worker_id client_id : value)
        (certificate_id service_value_usd dapp_origen : option value) :
  exists r e,
    distribute_for_service rt worker_id client_id None certificate_id
      service_value_usd dapp_origen = Ok r
    /\ emission_for r "gaia" = Some e
    /\ field e "destination_id" = Some VNone
    /\ field e "destination_id" <> Some (VInt 0).
Proof.
  destruct rt as [[|] now]; do 2 eexists;
    (split; [lazy; reflexivity|]);
    (split; [lazy; reflexivity|]);
    (split; [lazy; reflexivity|]);
    lazy; discriminate.
Qed.

(** ** Looking a wallet up *)

Section DictFacts.

Lemma dict_get_In (d : dict) (k : string) (v : value) :
  dict_get d k = Some v -> In (k, v) d.
Proof.
  induction d as [|[k' v'] d IH]; simpl; [discriminate|].
  destruct (String.eqb_spec k' k) as [->|_].
  - intros [= ->]. now left.
  - intros H. right. now apply IH.
Qed.

Lemma dict_get_unknown (d : dict) (k : string) :
  ~ In k (dict_keys d) -> dict_get d k = None.
Proof.
  induction d as [|[k' v'] d IH]; simpl; [reflexivity|].
  intros H. destruct (String.eqb_spec k' k) as [->|_].
  - exfalso. apply H. now left.
  - apply IH. intros Hin. apply H. now right.
Qed.

End DictFacts.

Lemma GREEK_WALLETS_table : GREEK_WALLETS = wallets_table.
Proof. vm_compute. reflexivity. Qed.

Lemma table_entries_ok : Forall entry_ok GREEK_WALLETS.
Proof.
  rewrite GREEK_WALLETS_table. unfold wallets_table.
  repeat constructor; do 2 eexists; split; reflexivity.
Qed.

(** The loop of [get_wallet_by_role] returns the first entry with the role,
    under its own name, or [None] when there is none. *)
Lemma get_wallet_by_role_loop_find (items : list (string * value))
      (role : string) :
  Forall entry_ok items ->
  get_wallet_by_role_loop items role =
  match find (fun kv => has_role role (snd kv)) items with
  | Some (name, VDict cfg) =>
      Ok (VDict (dict_update (dict_of [("name", VStr name)]) cfg))
  | _ => Ok VNone
  end.
Proof.
  induction 1 as [|[name config] items (cfg & r & Hcfg & Hrole) _ IH];
    [reflexivity|].
  simpl in Hcfg. subst config.
  cbn [get_wallet_by_role_loop find snd].
  unfold has_role, field, subscript. rewrite Hrole.
  cbn [bind eq_scalar].
  destruct (String.eqb r role); [reflexivity|exact IH].
Qed.

Lemma find_none_of_unknown_role (items : list (string * value))
      (role : string) :
  ~ In role
      (flat_map (fun kv => match field (snd kv) "role" with
                           | Some (VStr r) => [r]
                           | _ => []
                           end) items) ->
  find (fun kv => has_role role (snd kv)) items = None.
Proof.
  induction items as [|[name config] items IH]; [reflexivity|].
  cbn [flat_map find snd]. intros H. unfold has_role at 1.
  destruct (field config "role") as [[| | | |r| |]|];
    try (apply IH; exact H).
  destruct (String.eqb_spec r role) as [->|_].
  - exfalso. apply H. now left.
  - apply IH. intros Hin. apply H. now right.
Qed.

Lemma has_role_true (role : string) (config : value) :
  has_role role config = true -> field config "role" = Some (VStr role).
Proof.
  unfold has_role.
  destruct (field config "role") as [[| | | |r| |]|]; try discriminate.
  intros H. apply String.eqb_eq in H. now subst r.
Qed.

(** What [get_wallet_info] can return. *)
Lemma get_wallet_info_cases (key : string) :
  get_wallet_info key = Ok VNone
  \/ exists config, In (key, VDict config) GREEK_WALLETS
                    /\ get_wallet_info key = Ok (VDict config).
Proof.
  unfold get_wallet_info, dict_contains, subscript.
  destruct (dict_get GREEK_WALLETS key) as [v|] eqn:E; [|now left].
  right. apply dict_get_In in E.
  rewrite GREEK_WALLETS_table in *. unfold wallets_table in E.
  cbn [In] in E.
  repeat (destruct E as [E|E]; [injection E as <- <-; eexists; split;
    [|reflexivity]; simpl; tauto|]).
  contradiction.
Qed.

(** What [get_wallet_by_role] can return. *)
Lemma get_wallet_by_role_cases (role : string) :
  get_wallet_by_role role = Ok VNone
  \/ exists name config,
       In (name, VDict config) GREEK_WALLETS
       /\ dict_get config "role" = Some (VStr role)
       /\ get_wallet_by_role role = Ok (VDict config).
Proof.
  unfold get_wallet_by_role.
  rewrite (get_wallet_by_role_loop_find _ _ table_entries_ok).
  destruct (find _ GREEK_WALLETS) as [[name v]|] eqn:E; [|now left].
  apply find_some in E. destruct E as [E Hrole].
  rewrite GREEK_WALLETS_table in *. unfold wallets_table in E.
  cbn [In] in E.
  repeat (destruct E as [E|E]; [injection E as <- <-; right; do 2 eexists;
    (split; [|split]); [ | |reflexivity];
    [simpl; tauto|exact (has_role_true _ _ Hrole)]|]).
  contradiction.
Qed.

(** C7.  [get_wallet_info] of a key that is not in the table and
    [get_wallet_by_role] of a role no entry has both return [None]; and what
    either returns is never anything but [None] or a complete entry of the
    table. *)
Theorem unknown_lookup_returns_none :
  (forall key, ~ In key WALLET_NAMES -> get_wallet_info key = Ok VNone)
  /\ (forall role, ~ In role known_roles ->
                   get_wallet_by_role role = Ok VNone)
  /\ (forall key, get_wallet_info key = Ok VNone
                  \/ exists config, In (key, VDict config) GREEK_WALLETS
                                    /\ get_wallet_info key = Ok (VDict config))
  /\ (forall role, get_wallet_by_role role = Ok VNone
                   \/ exists name config,
                        In (name, VDict config) GREEK_WALLETS
                        /\ get_wallet_by_role role = Ok (VDict config)).
Proof.
  split; [|split; [|split]].
  - intros key H. unfold get_wallet_info, dict_contains.
    now rewrite (dict_get_unknown _ _ H).
  - intros role H. unfold get_wallet_by_role.
    rewrite (get_wallet_by_role_loop_find _ _ table_entries_ok).
    now rewrite (find_none_of_unknown_role _ _ H).
  - exact get_wallet_info_cases.
  - intros role.
    destruct (get_wallet_by_role_cases role) as [E|(name & config & H & _ & E)];
      [now left|right; now exists name, config].
Qed.

(** The lookups of a key and of a role that the table does not have. *)
Lemma unknown_lookup_witness :
  get_wallet_info "hades" = Ok VNone
  /\ get_wallet_by_role "admin" = Ok VNone.
Proof.
  split.
  - apply (proj1 unknown_lookup_returns_none).
    vm_compute. intuition discriminate.
  - apply (proj1 (proj2 unknown_lookup_returns_none)).
    vm_compute. intuition discriminate.
Defined.

(** In no entry of the table is the wallet key the display name, or any
    other value of the entry. *)
Lemma key_is_no_value_of_its_entry :
  Forall (fun kv =>
            exists cfg name,
              snd kv = VDict cfg
              /\ dict_get cfg "name" = Some (VStr name)
              /\ name <> fst kv
              /\ Forall (fun e => snd e <> VStr (fst kv)) cfg)
         GREEK_WALLETS.
Proof.
  rewrite GREEK_WALLETS_table. unfold wallets_table.
  repeat apply Forall_cons; try apply Forall_nil;
    do 2 eexists; (split; [reflexivity|]); (split; [reflexivity|]);
    (split; [discriminate|]);
    repeat apply Forall_cons; try apply Forall_nil; discriminate.
Qed.

(** C9.  When [get_wallet_info(key)] or [get_wallet_by_role(role)] finds an
    entry, the ['name'] of the returned record is the display name stored in
    the entry (the entry's own ['name'] overrides the key put first in the
    dictionary display), it differs from the wallet key, and no value of the
    returned record is the wallet key. *)
Theorem lookup_name_is_display_name :
  (forall key r,
      get_wallet_info key = Ok (VDict r) ->
      exists config name,
        In (key, VDict config) GREEK_WALLETS
        /\ dict_get config "name" = Some (VStr name)
        /\ dict_get r "name" = Some (VStr name)
        /\ name <> key
        /\ Forall (fun e => snd e <> VStr key) r)
  /\ (forall role r,
         get_wallet_by_role role = Ok (VDict r) ->
         exists key config name,
           In (key, VDict config) GREEK_WALLETS
           /\ dict_get config "role" = Some (VStr role)
           /\ dict_get config "name" = Some (VStr name)
           /\ dict_get r "name" = Some (VStr name)
           /\ name <> key
           /\ Forall (fun e => snd e <> VStr key) r).
Proof.
  pose proof (proj1 (Forall_forall _ _) key_is_no_value_of_its_entry) as T.
  split.
  - intros key r H.
    destruct (get_wallet_info_cases key) as [E|(config & Hin & E)];
      rewrite E in H; [discriminate|injection H as <-].
    destruct (T _ Hin) as (cfg & name & Hcfg & Hname & Hneq & Hvals).
    simpl in Hcfg. injection Hcfg as <-.
    now exists config, name.
  - intros role r H.
    destruct (get_wallet_by_role_cases role)
      as [E|(key & config & Hin & Hrole & E)];
      rewrite E in H; [discriminate|injection H as <-].
    destruct (T _ Hin) as (cfg & name & Hcfg & Hname & Hneq & Hvals).
    simpl in Hcfg. injection Hcfg as <-.
    now exists key, config, name.
Qed.

(** The lookups of ['athena'] and of the role ['foundation']. *)
Lemma lookup_name_witness :
  get_wallet_info "athena" = Ok (VDict athena_record)
  /\ dict_get athena_record "name" = Some (VStr "Athena")
  /\ get_wallet_by_role "foundation" = Ok (VDict athena_record)
  /\ (exists config name,
        In ("athena", VDict config) GREEK_WALLETS
        /\ dict_get config "name" = Some (VStr name)
        /\ dict_get athena_record "name" = Some (VStr name)
        /\ name <> "athena"
        /\ Forall (fun e => snd e <> VStr "athena") athena_record)
  /\ (exists key config name,
        In (key, VDict config) GREEK_WALLETS
        /\ dict_get config "role" = Some (VStr "foundation")
        /\ dict_get config "name" = Some (VStr name)
        /\ dict_get athena_record "name" = Some (VStr name)
        /\ name <> key
        /\ Forall (fun e => snd e <> VStr key) athena_record).
Proof.
  split; [vm_compute; reflexivity|].
  split; [vm_compute; reflexivity|].
  split; [vm_compute; reflexivity|].
  split.
  - apply (proj1 lookup_name_is_display_name "athena").
    vm_compute. reflexivity.
  - apply (proj2 lookup_name_is_display_name "foundation").
    vm_compute. reflexivity.
Defined.

(** ** The two distributions compared *)

(** Against C2 as it is stated: the athena emission of the generic distribution
    has the role ['foundation'], that of the per-service distribution has the
    role ['PSP Foundation'], so the two differ in more than the destination
    id. *)
Lemma athena_emissions_differ_in_role :
  exists g s e1 e2,
    distribute_classic_7_5 sample_runtime = Ok g
    /\ distribute_for_service sample_runtime (VInt 42) (VInt 7)
         (Some (VInt 9)) (Some (VInt 100))
         (Some (VFloat (PyFloat.lit 2500 1))) (Some (VStr "handyplan"))
       = Ok s
    /\ emission_for g "athena" = Some e1
    /\ emission_for s "athena" = Some e2
    /\ field e1 "role" = Some (VStr "foundation")
    /\ field e2 "role" = Some (VStr "PSP Foundation")
    /\ ~ differ_only_in_destination_id e1 e2.
Proof.
  do 4 eexists.
  split; [vm_compute; reflexivity|].
  split; [vm_compute; reflexivity|].
  split; [vm_compute; reflexivity|].
  split; [vm_compute; reflexivity|].
  split; [vm_compute; reflexivity|].
  split; [vm_compute; reflexivity|].
  intros H. specialize (H "role"). vm_compute in H.
  assert (E : Some (VStr "foundation") = Some (VStr "PSP Foundation")).
  { apply H. discriminate. }
  discriminate E.
Qed.

(** C2, amended.  For every wallet key, in table order, and for any
    arguments, clock and [sum], the emission of [distribute_classic_7_5] and
    the emission of [distribute_for_service] carry the same amount and the
    same destination type.  The emissions differ in the destination id,
    which the per-service emission has and the generic emission has not; in
    the name and the percentage, which the generic emission has and the
    per-service emission has not; and in the role, which both have with
    different labels.  On every other field they agree: the generic emission
    has the keys wallet, name, role, amount_psp, percentage and
    destination_type, the per-service emission the keys wallet, amount_psp,
    destination_type, destination_id and role. *)
Theorem distributions_agree_on_amounts
        (rt rt' : runtime) (worker_id client_id : value)
        (property_id certificate_id service_value_usd dapp_origen
         : option value) :
  exists g s,
    distribute_classic_7_5 rt = Ok g
    /\ distribute_for_service rt' worker_id client_id property_id
         certificate_id service_value_usd dapp_origen = Ok s
    /\ Forall (fun key =>
                 exists e1 e2 a t,
                   emission_for g key = Some e1
                   /\ emission_for s key = Some e2
                   /\ field e1 "amount_psp" = Some (VFloat a)
                   /\ field e2 "amount_psp" = Some (VFloat a)
                   /\ field e1 "destination_type" = Some (VStr t)
                   /\ field e2 "destination_type" = Some (VStr t))
              WALLET_NAMES
    /\ map core_of (emissions_of g) = map core_of (emissions_of s)
    /\ map (fun e => field e "wallet") (emissions_of g)
       = map (fun key => Some (VStr key)) WALLET_NAMES
    /\ map (drop_keys differing_fields) (emissions_of g)
       = map (drop_keys differing_fields) (emissions_of s)
    /\ Forall (fun e => field e "destination_id" = None) (emissions_of g)
    /\ Forall (fun key =>
                 exists e1 e2 d n p r1 r2,
                   emission_for g key = Some e1
                   /\ emission_for s key = Some e2
                   /\ keys_of e1 = generic_emission_keys
                   /\ keys_of e2 = service_emission_keys
                   /\ field e1 "destination_id" = None
                   /\ field e2 "destination_id" = Some d
                   /\ field e1 "name" = Some n
                   /\ field e2 "name" = None
                   /\ field e1 "percentage" = Some p
                   /\ field e2 "percentage" = None
                   /\ field e1 "role" = Some (VStr r1)
                   /\ field e2 "role" = Some (VStr r2)
                   /\ r1 <> r2)
              WALLET_NAMES.
Proof.
  destruct rt as [[|] now], rt' as [[|] now']; do 2 eexists;
    (split; [lazy; reflexivity|]);
    (split; [lazy; reflexivity|]);
    (split; [lazy; repeat constructor; do 4 eexists; repeat split;
             reflexivity|]);
    (split; [lazy; reflexivity|]);
    (split; [lazy; reflexivity|]);
    (split; [lazy; reflexivity|]);
    (split; [lazy; repeat constructor|]);
    lazy; repeat constructor; do 7 eexists;
    repeat (split; [reflexivity|]); discriminate.
Qed.

(** ** The genesis digest *)

Lemma compute_genesis_hash_value : _compute_genesis_hash = Ok genesis_digest.
Proof. vm_compute. reflexivity. Qed.

(** C4.  The genesis digest is the SHA-256 hash (in hexadecimal) of the
    UTF-8 bytes of a pipe-delimited string, whose ten segments are, in this
    order, the block number, version, timestamp, protocol name,
    total per transaction, message, satoshi legacy string, comma-joined
    wallet list, zeus percentage and olympus percentage, each under its
    label; no segment contains the delimiter. *)
Theorem genesis_hash_is_sha256_of_canonical_string :
  exists segments s,
    canonical_segments = Ok segments
    /\ List.length segments = 10%nat
    /\ forallb (fun seg => negb (has_pipe seg)) segments = true
    /\ s = String.concat "|" segments
    /\ genesis_string = Ok s
    /\ s = "block:0|version:1.0.0|timestamp:2025-12-01T00:00:00Z|protocol:Proof Of Service Protocol|psp:7.5|message:SmartWork Always Leads To Greatness|satoshi:Without verified physical work, there is no emission.|wallets:athena,hermes,chronos,prometheus,apollo,gaia,zeus,olympus|zeus:1.0|olympus:1.0"
    /\ _compute_genesis_hash
       = Ok (Sha256.hexdigest (Sha256.encode_utf8 s))
    /\ GENESIS_HASH = Ok genesis_digest.
Proof.
  do 2 eexists.
  split; [vm_compute; reflexivity|].
  split; [reflexivity|].
  split; [vm_compute; reflexivity|].
  split; [reflexivity|].
  repeat split; vm_compute; reflexivity.
Qed.

(** ** Verifying the genesis digest *)

Lemma verify_genesis_unchallenged :
  verify_genesis None = Ok (VDict unchallenged_record).
Proof. vm_compute. reflexivity. Qed.

(** The result of [verify_genesis] for a non-empty string: the record of
    the call without argument, with the string, the outcome of the
    comparison, and the outcome again as [verified]. *)
Lemma verify_genesis_nonempty (c : ascii) (p : string) :
  verify_genesis (Some (VStr (String c p))) =
  let matches := String.eqb genesis_digest (String c p) in
  Ok (VDict (dict_update unchallenged_record
               [("provided_hash", VStr (String c p));
                ("matches", VBool matches);
                ("verified", VBool matches)])).
Proof. vm_compute. reflexivity. Qed.

(** Against C5 as it is stated: the empty string is a wrong hash, it is not
    the digest, and [verify_genesis] of it returns [verified: True] and no
    ['matches'] at all; so not every wrong hash is rejected. *)
Lemma empty_hash_is_not_rejected :
  "" <> genesis_digest
  /\ _compute_genesis_hash = Ok genesis_digest
  /\ (exists r,
        verify_genesis (Some (VStr "")) = Ok r
        /\ field r "verified" = Some (VBool true)
        /\ field r "matches" = None)
  /\ ~ every_wrong_hash_is_rejected.
Proof.
  split; [discriminate|].
  split; [exact compute_genesis_hash_value|].
  split.
  - exists (VDict unchallenged_record).
    split; [vm_compute; reflexivity|]. split; reflexivity.
  - intros H. destruct (H "") as (r & Hr & Hm & _); [discriminate|].
    assert (E : verify_genesis (Some (VStr ""))
                = Ok (VDict unchallenged_record))
      by (vm_compute; reflexivity).
    rewrite E in Hr. injection Hr as <-. discriminate Hm.
Qed.

(** C5, amended.  [verify_genesis()] returns [verified: True] and a digest
    of 64 hexadecimal characters.  [verify_genesis] of sixty-four zeros, and
    of any other non-empty string that is not the digest, returns
    [matches: False] and [verified: False], and reports the same digest as
    the call without argument. *)
Theorem verify_genesis_results :
  exists h r0,
    verify_genesis None = Ok r0
    /\ field r0 "verified" = Some (VBool true)
    /\ field r0 "genesis_hash" = Some (VStr h)
    /\ String.length h = 64%nat
    /\ is_hex h = true
    /\ (exists r1,
          verify_genesis (Some (VStr (repeat_string "0" 64))) = Ok r1
          /\ field r1 "matches" = Some (VBool false)
          /\ field r1 "verified" = Some (VBool false)
          /\ field r1 "genesis_hash" = Some (VStr h))
    /\ (forall wrong,
          wrong <> "" -> wrong <> h ->
          exists r1,
            verify_genesis (Some (VStr wrong)) = Ok r1
            /\ field r1 "matches" = Some (VBool false)
            /\ field r1 "verified" = Some (VBool false)
            /\ field r1 "genesis_hash" = Some (VStr h)).
Proof.
  exists genesis_digest, (VDict unchallenged_record).
  split; [exact verify_genesis_unchallenged|].
  split; [reflexivity|].
  split; [reflexivity|].
  split; [reflexivity|].
  split; [vm_compute; reflexivity|].
  split.
  - eexists. split; [vm_compute; reflexivity|].
    repeat split; reflexivity.
  - intros [|c p] Hne Hwrong; [congruence|].
    assert (E : String.eqb genesis_digest (String c p) = false).
    { apply String.eqb_neq. congruence. }
    eexists. split.
    + rewrite verify_genesis_nonempty. cbv zeta. rewrite E. reflexivity.
    + repeat split; reflexivity.
Qed.

(** A wrong digest other than the sixty-four zeros. *)
Lemma verify_genesis_wrong_hash_witness :
  exists h r0 r1,
    verify_genesis None = Ok r0
    /\ field r0 "genesis_hash" = Some (VStr h)
    /\ verify_genesis (Some (VStr "deadbeef")) = Ok r1
    /\ field r1 "matches" = Some (VBool false)
    /\ field r1 "verified" = Some (VBool false)
    /\ field r1 "genesis_hash" = Some (VStr h).
Proof.
  destruct verify_genesis_results
    as (h & r0 & H0 & _ & Hh & _ & _ & _ & Hwrong).
  assert (Eh : h = genesis_digest).
  { rewrite verify_genesis_unchallenged in H0. injection H0 as <-.
    injection Hh as <-. reflexivity. }
  destruct (Hwrong "deadbeef") as (r1 & H1 & Hm & Hv & Hg).
  - discriminate.
  - rewrite Eh. discriminate.
  - exists h, r0, r1. repeat split; assumption.
Defined.

(** C10.  [verify_genesis('')] is the same as [verify_genesis()]: the empty
    string is false in the test [if provided_hash], so the result has
    [verified: True] and neither a ['matches'] nor a ['provided_hash'] key,
    although a digest, and a wrong one, was supplied. *)
Theorem verify_genesis_empty_string :
  verify_genesis (Some (VStr "")) = verify_genesis None
  /\ exists r h,
       verify_genesis (Some (VStr "")) = Ok r
       /\ field r "verified" = Some (VBool true)
       /\ field r "matches" = None
       /\ field r "provided_hash" = None
       /\ field r "genesis_hash" = Some (VStr h)
       /\ h <> "".
Proof.
  split; [vm_compute; reflexivity|].
  exists (VDict unchallenged_record), genesis_digest.
  split; [vm_compute; reflexivity|].
  repeat split; try reflexivity. discriminate.
Qed.

(* ================================================================= *)
(** * Further properties of the package *)

(** ** The per-service distribution on every call *)


(** X2.  [distribute_for_service] passes its arguments through unchanged and
    unchecked: the prometheus emission goes to [worker_id], the apollo
    emission to [client_id], the gaia emission to [property_id] (or [None]),
    the other five to [None]; [certificate_id], [service_value_usd] and
    [dapp_origen] come back as given, or as [None], [0.0] and ['generic']
    when left out; the timestamp is the reading of the clock. *)
Theorem service_distribution_routes_arguments
        (rt : runtime) (worker_id client_id : value)
        (property_id certificate_id service_value_usd dapp_origen
         : option value) :
  exists r,
    distribute_for_service rt worker_id client_id property_id
      certificate_id service_value_usd dapp_origen = Ok r
    /\ option_map snd (amount_and_destination r "prometheus") = Some worker_id
    /\ option_map snd (amount_and_destination r "apollo") = Some client_id
    /\ option_map snd (amount_and_destination r "gaia")
       = Some (or_default property_id VNone)
    /\ Forall (fun key =>
                 option_map snd (amount_and_destination r key) = Some VNone)
              SYSTEM_WALLETS
    /\ field r "certificate_id" = Some (or_default certificate_id VNone)
    /\ field r "service_value_usd"
       = Some (or_default service_value_usd (VFloat (PyFloat.lit 0 1)))
    /\ field r "dapp_origen"
       = Some (or_default dapp_origen (VStr "generic"))
    /\ field r "timestamp" = Some (VStr (utc_now_isoformat rt)).
Proof.
  destruct rt as [[|] now]; eexists;
    (split; [lazy; reflexivity|]); repeat split;
    try (lazy; reflexivity);
    repeat constructor;
    try (destruct service_value_usd; lazy; reflexivity).
Qed.

(** ** The generic distribution *)

(** X3.  Whatever the clock and the interpreter's [sum],
    [distribute_classic_7_5] returns normally with total 7.5 and [verified]
    [True]; it has one emission per wallet, in table order, and the name,
    role, amount, percentage and destination type of each emission are those
    of the record [get_wallet_info] returns for that wallet; no emission has
    a destination id; the timestamp is the reading of the clock. *)
Theorem classic_distribution_copies_table (rt : runtime) :
  exists g,
    distribute_classic_7_5 rt = Ok g
    /\ field g "total_psp" = Some TOTAL_PSP_PER_TRANSACTION
    /\ field g "verified" = Some (VBool true)
    /\ field g "timestamp" = Some (VStr (utc_now_isoformat rt))
    /\ emission_wallets g = map (fun key => Some (VStr key)) WALLET_NAMES
    /\ Forall (fun key =>
                 exists e w,
                   emission_for g key = Some e
                   /\ get_wallet_info key = Ok w
                   /\ Forall (copied_from e w) copied_fields
                   /\ field e "destination_id" = None)
              WALLET_NAMES.
Proof.
  destruct rt as [[|] now]; eexists;
    (split; [vm_compute; reflexivity|]);
    (split; [vm_compute; reflexivity|]);
    (split; [vm_compute; reflexivity|]);
    (split; [vm_compute; reflexivity|]);
    (split; [vm_compute; reflexivity|]);
    unfold WALLET_NAMES; rewrite GREEK_WALLETS_table;
    repeat constructor; do 2 eexists;
    (split; [vm_compute; reflexivity|]);
    (split; [vm_compute; reflexivity|]);
    (split; [|vm_compute; reflexivity]);
    repeat constructor; eexists; split; vm_compute; reflexivity.
Qed.

(** ** Lookups by key and by role *)

Lemma dict_get_set (d : dict) (k : string) (v : value) (k' : string) :
  dict_get (dict_set d k v) k'
  = if String.eqb k k' then Some v else dict_get d k'.
Proof.
  induction d as [|[k0 v0] d IH]; simpl; [reflexivity|].
  destruct (String.eqb_spec k0 k) as [->|Hk0]; simpl.
  - now destruct (String.eqb k k').
  - rewrite IH. destruct (String.eqb_spec k0 k') as [->|_]; [|reflexivity].
    destruct (String.eqb_spec k k') as [->|_]; [contradiction|reflexivity].
Qed.

Lemma dict_get_update (items : list (string * value)) (d : dict)
      (k : string) :
  NoDup (map fst items) ->
  dict_get (dict_update d items) k
  = match dict_get items k with
    | Some v => Some v
    | None => dict_get d k
    end.
Proof.
  unfold dict_update. revert d.
  induction items as [|[k0 v0] items IH]; intros d Hnd; [reflexivity|].
  simpl in Hnd. inversion Hnd as [|? ? Hnotin Hnd']; subst.
  cbn [fold_left fst snd dict_get]. rewrite (IH _ Hnd'), dict_get_set.
  destruct (String.eqb_spec k0 k) as [->|_]; [|reflexivity].
  now rewrite (dict_get_unknown items k Hnotin).
Qed.

(** [==] of a value that is not the string [role] with [role] is [False]. *)
Lemma eq_scalar_other (r : value) (role : string) :
  r <> VStr role -> eq_scalar r (VStr role) = Ok false.
Proof.
  intros Hne. destruct r; try reflexivity.
  cbn [eq_scalar]. destruct (String.eqb_spec s role) as [->|_];
    [now destruct Hne|reflexivity].
Qed.

Lemma role_loop_skips (pre rest : list (string * value)) (role : string) :
  Forall (other_role role) pre ->
  get_wallet_by_role_loop (pre ++ rest) role
  = get_wallet_by_role_loop rest role.
Proof.
  induction 1 as [|[name config] pre (cfg & r & Hcfg & Hrole & Hne) _ IH];
    [reflexivity|].
  simpl in Hcfg. subst config.
  cbn [app get_wallet_by_role_loop]. unfold subscript. rewrite Hrole.
  cbn [bind]. rewrite (eq_scalar_other _ _ Hne). exact IH.
Qed.

(** X4.  Take any table that begins with entries the loop of
    [get_wallet_by_role] passes over: dictionaries whose ['role'] is not the
    role looked for.  If nothing follows them, the loop returns [None].  If
    the next entry is a dictionary without ['role'], the loop raises
    [KeyError('role')].  If the next entry has the role, the loop returns a
    record for it, whatever follows (entries with the same role included):
    the record has every field of the entry, and its ['name'] is the entry's
    own ['name'], the wallet key only when the entry has none. *)
Theorem role_lookup_takes_first_match
        (pre : list (string * value)) (role : string) :
  Forall (other_role role) pre ->
  get_wallet_by_role_loop pre role = Ok VNone
  /\ (forall name cfg post,
         dict_get cfg "role" = None ->
         get_wallet_by_role_loop (pre ++ (name, VDict cfg) :: post) role
         = Raise (KeyError "role"))
  /\ (forall name cfg post,
         dict_get cfg "role" = Some (VStr role) ->
         NoDup (dict_keys cfg) ->
         exists r,
           get_wallet_by_role_loop (pre ++ (name, VDict cfg) :: post) role
           = Ok (VDict r)
           /\ dict_get r "name" = Some (name_of_record name cfg)
           /\ forall k, k <> "name" -> dict_get r k = dict_get cfg k).
Proof.
  intros Hpre. split; [|split].
  - rewrite <- (app_nil_r pre). now rewrite (role_loop_skips _ _ _ Hpre).
  - intros name cfg post Hrole. rewrite (role_loop_skips _ _ _ Hpre).
    cbn [get_wallet_by_role_loop]. unfold subscript. now rewrite Hrole.
  - intros name cfg post Hrole Hnd. eexists. split.
    + rewrite (role_loop_skips _ _ _ Hpre).
      cbn [get_wallet_by_role_loop]. unfold subscript. rewrite Hrole.
      cbn [bind eq_scalar mapping_items]. rewrite String.eqb_refl.
      reflexivity.
    + split.
      * rewrite (dict_get_update _ _ _ Hnd). unfold name_of_record.
        now destruct (dict_get cfg "name").
      * intros k Hk. rewrite (dict_get_update _ _ _ Hnd).
        destruct (dict_get cfg k); [reflexivity|].
        change (dict_get (dict_of [("name", VStr name)]) k)
          with (if String.eqb "name" k then Some (VStr name) else None).
        destruct (String.eqb_spec "name" k) as [<-|_];
          [contradiction|reflexivity].
Qed.

(** Tables that begin with an entry of another role and an entry whose role
    is a number: alone; followed by an entry without role; followed by
    ['zeus'], which has the role ['dao'] and no name of its own, and by
    ['hades'], which has the role ['dao'] too. *)
Lemma role_lookup_first_match_witness :
  get_wallet_by_role_loop entries_without_dao "dao" = Ok VNone
  /\ get_wallet_by_role_loop
       (entries_without_dao ++ [("nyx", VDict [("name", VStr "Nyx")])])
       "dao"
     = Raise (KeyError "role")
  /\ exists r,
       get_wallet_by_role_loop
         (entries_without_dao
          ++ ("zeus", VDict [("role", VStr "dao"); ("immutable", VBool true)])
          :: [("hades", VDict [("name", VStr "Hades"); ("role", VStr "dao")])])
         "dao"
       = Ok (VDict r)
       /\ dict_get r "name" = Some (VStr "zeus")
       /\ forall k, k <> "name" ->
                    dict_get r k
                    = dict_get [("role", VStr "dao"); ("immutable", VBool true)]
                               k.
Proof.
  assert (Hpre : Forall (other_role "dao") entries_without_dao).
  { repeat constructor; do 2 eexists;
      (split; [reflexivity|]); (split; [reflexivity|]); discriminate. }
  destruct (role_lookup_takes_first_match entries_without_dao "dao" Hpre)
    as (Hnone & Herr & Hfirst).
  split; [exact Hnone|]. split.
  - apply Herr. reflexivity.
  - apply (Hfirst "zeus" [("role", VStr "dao"); ("immutable", VBool true)]).
    + reflexivity.
    + repeat constructor; simpl; intuition discriminate.
Defined.

(** Each entry of the table is found under its key and under its role. *)
Lemma table_lookups :
  Forall (fun kv =>
            exists cfg role,
              snd kv = VDict cfg
              /\ dict_get cfg "role" = Some (VStr role)
              /\ get_wallet_by_role role = Ok (VDict cfg)
              /\ get_wallet_info (fst kv) = Ok (VDict cfg))
         GREEK_WALLETS.
Proof.
  rewrite GREEK_WALLETS_table. unfold wallets_table.
  repeat apply Forall_cons; try apply Forall_nil; do 2 eexists;
    (split; [reflexivity|]); (split; [reflexivity|]);
    split; vm_compute; reflexivity.
Qed.

(** X5.  The two lookups are inverse to each other: the record
    [get_wallet_info] returns for a key is the one [get_wallet_by_role]
    returns for the role written in it, and every record
    [get_wallet_by_role] returns is the one [get_wallet_info] returns for
    some key of the table.  No two wallets share a role. *)
Theorem lookups_are_inverse :
  (forall key r,
      get_wallet_info key = Ok (VDict r) ->
      exists role, dict_get r "role" = Some (VStr role)
                   /\ get_wallet_by_role role = Ok (VDict r))
  /\ (forall role r,
         get_wallet_by_role role = Ok (VDict r) ->
         exists key, In key WALLET_NAMES
                     /\ get_wallet_info key = Ok (VDict r))
  /\ NoDup known_roles.
Proof.
  pose proof (proj1 (Forall_forall _ _) table_lookups) as T.
  split; [|split].
  - intros key r H.
    destruct (get_wallet_info_cases key) as [E|(config & Hin & E)];
      rewrite E in H; [discriminate|injection H as <-].
    destruct (T _ Hin) as (cfg & role & Hcfg & Hrole & Hby & _).
    simpl in Hcfg. injection Hcfg as <-. now exists role.
  - intros role r H.
    destruct (get_wallet_by_role_cases role)
      as [E|(key & config & Hin & Hrole & E)];
      rewrite E in H; [discriminate|injection H as <-].
    destruct (T _ Hin) as (cfg & role' & Hcfg & _ & _ & Hinfo).
    simpl in Hcfg, Hinfo. injection Hcfg as <-.
    exists key. split; [|exact Hinfo].
    unfold WALLET_NAMES, dict_keys.
    change key with (fst (key, VDict config)). now apply in_map.
  - vm_compute. repeat constructor; simpl; intuition discriminate.
Qed.

Lemma lookups_are_inverse_witness :
  exists role,
    dict_get athena_record "role" = Some (VStr role)
    /\ get_wallet_by_role role = Ok (VDict athena_record).
Proof.
  apply (proj1 lookups_are_inverse "athena").
  vm_compute. reflexivity.
Defined.

(** X6.  The lookups match the wallet key and the role exactly, not the
    display strings: for every entry of the table, [get_wallet_info] of its
    display name, [get_wallet_by_role] of its key and [get_wallet_by_role]
    of its display role all return [None]. *)
Theorem lookups_do_not_match_display_strings :
  Forall (fun kv =>
            wrong_kind_lookups kv = Some (Ok VNone, Ok VNone, Ok VNone))
         GREEK_WALLETS.
Proof.
  rewrite GREEK_WALLETS_table. unfold wallets_table.
  repeat apply Forall_cons; try apply Forall_nil; vm_compute; reflexivity.
Qed.

(** ** Verifying against any value *)

(** [verify_genesis] of a given value, whatever it is. *)
Lemma verify_genesis_given (p : value) :
  verify_genesis (Some p) =
  if truthy p then
    matches <- eq_scalar (VStr genesis_digest) p ;;
    Ok (VDict (dict_update unchallenged_record
                 [("provided_hash", p);
                  ("matches", VBool matches);
                  ("verified", VBool matches)]))
  else Ok (VDict unchallenged_record).
Proof. destruct p; vm_compute; reflexivity. Qed.

(** X7.  For every string, [verify_genesis] returns normally, and
    [verified] is [True] exactly when the string is the genesis digest or is
    empty.  For a non-empty string, [matches] and [verified] are the same
    and the string comes back under ['provided_hash']. *)
Theorem verified_exactly_for_the_digest (p : string) :
  exists r,
    verify_genesis (Some (VStr p)) = Ok r
    /\ (field r "verified" = Some (VBool true)
        <-> p = "" \/ p = genesis_digest)
    /\ (p <> "" ->
        field r "matches" = field r "verified"
        /\ field r "provided_hash" = Some (VStr p)).
Proof.
  destruct p as [|c p].
  - exists (VDict unchallenged_record).
    split; [vm_compute; reflexivity|].
    split; [|congruence].
    split; [now left|reflexivity].
  - rewrite verify_genesis_nonempty. cbv zeta.
    destruct (String.eqb_spec genesis_digest (String c p)) as [E|E];
      eexists; (split; [reflexivity|]); (split; [|split; reflexivity]).
    + split; [now right|reflexivity].
    + split; [discriminate|]. intros [H|H]; [discriminate|congruence].
Qed.

(** X8.  A given value that is false in Python (the empty string, [0],
    [0.0], [False], [[]], [{}], [None]) is treated as no value at all.  A true value that is
    not a string is compared with the digest and never equals it: [matches]
    and [verified] are [False] and the value comes back under
    ['provided_hash']. *)
Theorem verify_genesis_of_other_values :
  (forall p, truthy p = false -> verify_genesis (Some p) = verify_genesis None)
  /\ (forall p,
         truthy p = true ->
         (forall s, p <> VStr s) ->
         exists r,
           verify_genesis (Some p) = Ok r
           /\ field r "matches" = Some (VBool false)
           /\ field r "verified" = Some (VBool false)
           /\ field r "provided_hash" = Some p
           /\ field r "genesis_hash" = Some (VStr genesis_digest)).
Proof.
  split.
  - intros p H. rewrite verify_genesis_given, H.
    symmetry. exact verify_genesis_unchallenged.
  - intros p H Hstr. rewrite verify_genesis_given, H.
    assert (E : eq_scalar (VStr genesis_digest) p = Ok false).
    { destruct p; try reflexivity. now destruct (Hstr s). }
    rewrite E. cbn [bind]. eexists. split; [reflexivity|].
    repeat split; reflexivity.
Qed.

Lemma verify_genesis_of_other_values_witness :
  verify_genesis (Some (VInt 0)) = verify_genesis None
  /\ exists r,
       verify_genesis (Some (VInt 7)) = Ok r
       /\ field r "matches" = Some (VBool false)
       /\ field r "verified" = Some (VBool false)
       /\ field r "provided_hash" = Some (VInt 7)
       /\ field r "genesis_hash" = Some (VStr genesis_digest).
Proof.
  split.
  - apply (proj1 verify_genesis_of_other_values). reflexivity.
  - apply (proj2 verify_genesis_of_other_values).
    + reflexivity.
    + discriminate.
Defined.

(** ** The published genesis information *)

(** X9.  The hash [get_genesis_info] publishes is the digest computed when
    the module is loaded; given back to [verify_genesis] it matches and
    verifies.  The timestamp and the total that the two functions report are
    the same, and the message, principles and satoshi legacy of the
    information are those of the genesis block. *)
Theorem published_hash_verifies :
  exists info h r,
    get_genesis_info = Ok info
    /\ field info "hash" = Some (VStr h)
    /\ GENESIS_HASH = Ok h
    /\ verify_genesis (Some (VStr h)) = Ok r
    /\ field r "matches" = Some (VBool true)
    /\ field r "verified" = Some (VBool true)
    /\ field r "genesis_hash" = Some (VStr h)
    /\ field info "timestamp" = field r "timestamp"
    /\ field info "total_psp_per_transaction" = field r "total_psp"
    /\ Forall (fun key =>
                 field info key = field (VDict GENESIS_BLOCK) key
                 /\ field info key <> None)
              ["timestamp"; "message"; "principles"; "satoshi_legacy";
               "total_psp_per_transaction"; "block_number"].
Proof.
  do 3 eexists.
  split; [vm_compute; reflexivity|].
  split; [vm_compute; reflexivity|].
  split; [vm_compute; reflexivity|].
  split; [vm_compute; reflexivity|].
  split; [vm_compute; reflexivity|].
  split; [vm_compute; reflexivity|].
  split; [vm_compute; reflexivity|].
  split; [vm_compute; reflexivity|].
  split; [vm_compute; reflexivity|].
  repeat constructor; vm_compute; try reflexivity; discriminate.
Qed.

(** X10.  The genesis block and the wallet table agree where they repeat
    each other: the wallet list of the block is the key list of the table,
    in order; its total is [TOTAL_PSP_PER_TRANSACTION]; its three immutable
    rules are the entries of [ETERNAL_RULES] of the same names; the wallet
    count that [verify_genesis] reports is the size of the table; and the
    previous hash is as long as the digest. *)
Theorem genesis_block_agrees_with_constants :
  field (VDict GENESIS_BLOCK) "wallets" = Some (VList (map VStr WALLET_NAMES))
  /\ field (VDict GENESIS_BLOCK) "total_psp_per_transaction"
     = Some TOTAL_PSP_PER_TRANSACTION
  /\ Forall (fun key =>
               field genesis_rules key = field (VDict ETERNAL_RULES) key
               /\ field genesis_rules key <> None)
            ["zeus_percentage"; "olympus_percentage"; "total_psp_fixed"]
  /\ field (VDict ETERNAL_RULES) "total_psp_fixed"
     = Some TOTAL_PSP_PER_TRANSACTION
  /\ Ok (field (VDict unchallenged_record) "wallet_count")
     = (n <- len (VDict GREEK_WALLETS) ;; Ok (Some n))
  /\ Ok (field (VDict GENESIS_BLOCK) "previous_hash")
     = (h <- GENESIS_HASH ;;
        Ok (Some (VStr (repeat_string "0" (String.length h))))).
Proof.
  split; [vm_compute; reflexivity|].
  split; [vm_compute; reflexivity|].
  split; [repeat constructor; vm_compute; try reflexivity; discriminate|].
  repeat split; vm_compute; reflexivity.
Qed.

(** ** The groups of wallets *)

(** X11.  [USER_WALLETS], [PROPERTY_WALLETS] and [SYSTEM_WALLETS] divide the
    keys of the table: no key is in two groups and every key is in one.  A
    wallet is a user wallet exactly when its destination type is ['user'], a
    property wallet exactly when it is ['property_nft'], and it is in
    [IMMUTABLE_WALLETS] exactly when its entry is flagged immutable; the
    immutable wallets are system wallets. *)
Theorem wallet_groups_divide_the_table :
  NoDup grouped_wallets
  /\ (forall key, In key WALLET_NAMES <-> In key grouped_wallets)
  /\ Forall (fun kv =>
               in_group USER_WALLETS (fst kv)
               = has_destination_type "user" (snd kv)
               /\ in_group PROPERTY_WALLETS (fst kv)
                  = has_destination_type "property_nft" (snd kv)
               /\ in_group IMMUTABLE_WALLETS (fst kv)
                  = is_immutable (snd kv))
            GREEK_WALLETS
  /\ incl IMMUTABLE_WALLETS SYSTEM_WALLETS.
Proof.
  split; [|split; [|split]].
  - repeat constructor; simpl; intuition discriminate.
  - intros key. unfold WALLET_NAMES. rewrite GREEK_WALLETS_table.
    simpl. tauto.
  - rewrite GREEK_WALLETS_table. unfold wallets_table.
    repeat apply Forall_cons; try apply Forall_nil; repeat split.
  - intros key. simpl. tauto.
Qed.

(** X12.  The entries flagged immutable are those of zeus and olympus.  The
    percentage of each is the one [ETERNAL_RULES] fixes for it, and its
    amount is exactly that percentage of the total:
    [TOTAL_PSP_PER_TRANSACTION * percentage / 100] computes the stored
    amount without any difference. *)
Theorem immutable_wallets_get_one_percent :
  map fst immutable_entries = IMMUTABLE_WALLETS
  /\ Forall (fun kv =>
               exists a p,
                 amount_of (snd kv) = Some a
                 /\ float_field (snd kv) "percentage" = Some p
                 /\ field (VDict ETERNAL_RULES) (fst kv ++ "_percentage")
                    = Some (VFloat p)
                 /\ share_of_total p = a)
            immutable_entries.
Proof.
  split; [vm_compute; reflexivity|].
  unfold immutable_entries. rewrite GREEK_WALLETS_table.
  unfold wallets_table. cbn [filter is_immutable field snd dict_get].
  repeat constructor; do 2 eexists;
    (split; [reflexivity|]); (split; [reflexivity|]);
    split; vm_compute; reflexivity.
Qed.

(** X13.  The stored percentages do not add up to 100: each is rounded to
    two decimals, and their sum is 99.99. *)
Theorem percentages_add_up_to_99_99 :
  (Qabs (exact_percentage_sum GREEK_WALLETS - (9999 # 100)) < 1 # 1000000)%Q
  /\ (exact_percentage_sum GREEK_WALLETS < 100)%Q
  /\ forall rt,
       exists total,
         (ps <- mapM (fun w => subscript w "percentage")
                     (dict_values GREEK_WALLETS) ;;
          sum rt ps) = Ok (VFloat total)
         /\ PyFloat.ltb total (PyFloat.of_Z 100) = true
         /\ PyFloat.repr total = Some "99.99".
Proof.
  split; [vm_compute; reflexivity|].
  split; [vm_compute; reflexivity|].
  intros [[|] now]; eexists; (split; [vm_compute; reflexivity|]);
    split; vm_compute; reflexivity.
Qed.

(** ** The summary and the gaia protocol *)

(** X14.  [get_distribution_summary] returns normally and agrees with the
    constants it repeats: its wallet count and wallet list are those of the
    table, its user, property and system destinations are [USER_WALLETS],
    [PROPERTY_WALLETS] and [SYSTEM_WALLETS], its eternal rules are
    [ETERNAL_RULES], and its distribution has, for every wallet and in table
    order, the amount, the percentage and the display role of the record
    [get_wallet_info] returns. *)
Theorem summary_agrees_with_constants :
  exists s,
    get_distribution_summary = Ok s
    /\ field s "wallet_count"
       = Some (VInt (Z.of_nat (List.length WALLET_NAMES)))
    /\ field s "wallets" = Some (VList (map VStr WALLET_NAMES))
    /\ field s "total_psp_per_transaction" = Some TOTAL_PSP_PER_TRANSACTION
    /\ field s "eternal_rules" = Some (VDict ETERNAL_RULES)
    /\ field s "user_destinations" = Some (VList (map VStr USER_WALLETS))
    /\ option_map (fun v => [v]) (field s "property_destination")
       = Some (map VStr PROPERTY_WALLETS)
    /\ field s "system_destinations" = Some (VList (map VStr SYSTEM_WALLETS))
    /\ option_map (fun d => match d with
                            | VDict items => dict_keys items
                            | _ => []
                            end)
                  (field s "distribution") = Some WALLET_NAMES
    /\ Forall (fun key =>
                 exists e w,
                   summary_of s key = Some e
                   /\ get_wallet_info key = Ok w
                   /\ Forall (copied_from e w) summary_fields)
              WALLET_NAMES.
Proof.
  eexists. split; [vm_compute; reflexivity|].
  do 8 (split; [vm_compute; reflexivity|]).
  unfold WALLET_NAMES; rewrite GREEK_WALLETS_table.
  repeat constructor; do 2 eexists;
    (split; [vm_compute; reflexivity|]);
    (split; [vm_compute; reflexivity|]);
    repeat constructor; eexists; split; vm_compute; reflexivity.
Qed.

(** X15.  What [get_gaia_protocol] says of the gaia share is what the table
    and the per-service distribution do: its wallet is the one property
    wallet, and its amount and destination type are those of the table
    entry and, for any arguments, of the gaia emission of
    [distribute_for_service]. *)
Theorem gaia_protocol_agrees_with_distribution
        (rt : runtime) (worker_id client_id : value)
        (property_id certificate_id service_value_usd dapp_origen
         : option value) :
  exists gp w r e a t,
    get_gaia_protocol = Ok gp
    /\ option_map (fun v => [v]) (field gp "wallet")
       = Some (map VStr PROPERTY_WALLETS)
    /\ get_wallet_info "gaia" = Ok w
    /\ distribute_for_service rt worker_id client_id property_id
         certificate_id service_value_usd dapp_origen = Ok r
    /\ emission_for r "gaia" = Some e
    /\ field gp "psp_amount" = Some a
    /\ field w "psp_amount" = Some a
    /\ field e "amount_psp" = Some a
    /\ field gp "destination_type" = Some t
    /\ field w "destination_type" = Some t
    /\ field e "destination_type" = Some t.
Proof.
  destruct rt as [[|] now]; do 6 eexists;
    (split; [vm_compute; reflexivity|]);
    (split; [vm_compute; reflexivity|]);
    (split; [vm_compute; reflexivity|]);
    (split; [lazy; reflexivity|]);
    (split; [lazy; reflexivity|]);
    (split; [vm_compute; reflexivity|]);
    repeat split; vm_compute; reflexivity.
Qed.

(** X16.  [get_all_wallets()[key]] and [get_wallet_info(key)] give the same
    record for every key of the table; for any other key the first raises
    [KeyError] where the second returns [None]. *)
Theorem all_wallets_subscript_and_wallet_info (key : string) :
  (wallets <- get_all_wallets ;; subscript wallets key)
  = match get_wallet_info key with
    | Ok VNone => Raise (KeyError key)
    | found => found
    end.
Proof.
  unfold get_all_wallets. cbn [bind]. unfold subscript.
  destruct (dict_get GREEK_WALLETS key) as [v|] eqn:D.
  - apply dict_get_In in D. rewrite GREEK_WALLETS_table in D.
    unfold wallets_table in D. cbn [In] in D.
    repeat (destruct D as [D|D];
            [injection D as <- <-; vm_compute; reflexivity|]).
    contradiction.
  - unfold get_wallet_info, dict_contains. now rewrite D.
Qed.
